(** * S3ClientHandler: a shallow embedding of [notebooks/s3_client.py]

    The facade wraps a boto3 S3 client.  The SDK, the two data-format
    libraries and the operating system are outside the repository, so they
    enter the development as interfaces ([S3Client], [DataLibs]) and as an
    explicit [World] that the facade's methods thread: process environment,
    standard output, live temporary files and the state behind the SDK.
    Python exceptions are an [outcome]; [try]/[except ClientError] and
    [with NamedTemporaryFile] are combinators of the small monad [M]. *)

From Stdlib Require Import ZArith Ascii.
From stdpp Require Import base strings gmap list pretty sorting.

Local Open Scope string_scope.
Local Open Scope list_scope.

(** ** Exceptions and outcomes *)

(** The exception classes the module names, plus one constructor for every
    class that is not a [ClientError] (botocore's own [BotoCoreError]
    family, [OSError], ...).  A [ClientError] carries what the code reads
    from it: [e.response["Error"]["Code"]] and [str(e)]. *)
Inductive exn : Type :=
| ClientError (code message : string)
| ValueError (message : string)
| PermissionError (message : string)
| OtherException (class_name message : string).

#[global] Instance exn_eq_dec : EqDecision exn.
Proof. solve_decision. Defined.

Inductive outcome (A : Type) : Type :=
| Return (a : A)
| Raise (e : exn).
Arguments Return {A} a.
Arguments Raise {A} e.

Definition is_client_error (e : exn) : bool :=
  match e with ClientError _ _ => true | _ => false end.

Definition raises_client_error {A} (o : outcome A) : bool :=
  match o with Raise e => is_client_error e | Return _ => false end.

(** ** The storage service as the SDK presents it *)

Record S3Object : Type := { Key : string; Size : Z }.

#[global] Instance S3Object_eq_dec : EqDecision S3Object.
Proof. solve_decision. Defined.

(** Keyword arguments of [list_objects_v2] that the module passes. *)
Record ListObjectsV2Request : Type :=
  { Bucket : string; Prefix : option string; MaxKeys : option nat }.

(** The response dictionary: ["Contents"] may be missing. *)
Record ListObjectsV2Output : Type :=
  { Contents : option (list S3Object); IsTruncated : bool }.

(** The calls the module makes on [boto3.client("s3")], over a state [S]
    that stands for everything behind the SDK.  A call that is handed a
    local path also finds the local files that exist at that moment. *)
Record S3Client (S : Type) : Type := {
  list_objects_v2 : ListObjectsV2Request → S → outcome ListObjectsV2Output;
  (** [get_paginator('list_objects_v2').paginate(...)]: the pages in the
      order the iterator yields them; a [Raise] ends the iteration. *)
  paginate : ListObjectsV2Request → S → list (outcome ListObjectsV2Output);
  head_object : string → string → S → outcome ();
  upload_file : string → string → string → gset string → S → outcome () * S;
  download_file : string → string → string → gset string → S → outcome () * S;
}.
Arguments list_objects_v2 {S} _ _ _.
Arguments paginate {S} _ _ _.
Arguments head_object {S} _ _ _ _.
Arguments upload_file {S} _ _ _ _ _ _.
Arguments download_file {S} _ _ _ _ _ _.

(** ** What the client checks before it sends

    botocore validates the [Bucket] parameter of every S3 call on the
    client side and raises [ParamValidationError], which is not a
    [ClientError], when the name matches neither of its two patterns.  The
    patterns are kept as regular expressions and matched by derivatives. *)

Inductive regex : Type :=
| Never
| Eps
| Chars (p : ascii → bool)
| Seq (r1 r2 : regex)
| Alt (r1 r2 : regex)
| Star (r : regex).

Fixpoint nullable (r : regex) : bool :=
  match r with
  | Never | Chars _ => false
  | Eps | Star _ => true
  | Seq r1 r2 => nullable r1 && nullable r2
  | Alt r1 r2 => nullable r1 || nullable r2
  end.

Definition mk_seq (r1 r2 : regex) : regex :=
  match r1, r2 with
  | Never, _ | _, Never => Never
  | Eps, r | r, Eps => r
  | _, _ => Seq r1 r2
  end.

Definition mk_alt (r1 r2 : regex) : regex :=
  match r1, r2 with
  | Never, r | r, Never => r
  | _, _ => Alt r1 r2
  end.

Fixpoint derive (a : ascii) (r : regex) : regex :=
  match r with
  | Never | Eps => Never
  | Chars p => if p a then Eps else Never
  | Seq r1 r2 =>
      if nullable r1 then mk_alt (mk_seq (derive a r1) r2) (derive a r2)
      else mk_seq (derive a r1) r2
  | Alt r1 r2 => mk_alt (derive a r1) (derive a r2)
  | Star r' => mk_seq (derive a r') (Star r')
  end.

Fixpoint regex_match (r : regex) (s : string) : bool :=
  match s with
  | EmptyString => nullable r
  | String a s' => regex_match (derive a r) s'
  end.

Definition char_in (lo hi : ascii) (a : ascii) : bool :=
  (nat_of_ascii lo <=? nat_of_ascii a)%nat && (nat_of_ascii a <=? nat_of_ascii hi)%nat.

Definition char_is (c : ascii) (a : ascii) : bool := char_in c c a.

Fixpoint lit (s : string) : regex :=
  match s with
  | EmptyString => Eps
  | String c s' => Seq (Chars (char_is c)) (lit s')
  end.

(** [r{n}] and [r{0,n}]. *)
Fixpoint times (n : nat) (r : regex) : regex :=
  match n with
  | O => Eps
  | Datatypes.S n' => Seq r (times n' r)
  end.

Fixpoint at_most (n : nat) (r : regex) : regex :=
  match n with
  | O => Eps
  | Datatypes.S n' => Alt Eps (Seq r (at_most n' r))
  end.

(** [r{lo,hi}]. *)
Definition between (lo hi : nat) (r : regex) : regex :=
  Seq (times lo r) (at_most (hi - lo) r).

Definition alnum (a : ascii) : bool :=
  char_in "a" "z" a || char_in "A" "Z" a || char_in "0" "9" a.

(** [.]: any character but a newline. *)
Definition any_char (a : ascii) : bool := negb (char_is "010" a).

(** [$]: the end, or a newline right before it. *)
Definition dollar : regex := Alt Eps (Chars (char_is "010")).

(** [^[a-zA-Z0-9.\-_]{1,255}$] *)
Definition VALID_BUCKET : regex :=
  Seq (between 1 255
         (Chars (λ a, alnum a || char_is "." a || char_is "-" a || char_is "_" a)))
      dollar.

Definition region_char (a : ascii) : bool :=
  char_in "a" "z" a || char_is "-" a || char_in "0" "9" a.

Definition slash_or_colon (a : ascii) : bool := char_is "/" a || char_is ":" a.

(** [^arn:(aws).*:(s3|s3-object-lambda):[a-z\-0-9]*:[0-9]{12}:accesspoint[/:][a-zA-Z0-9\-.]{1,63}$] *)
Definition ACCESSPOINT_ARN : regex :=
  Seq (lit "arn:aws") (Seq (Star (Chars any_char)) (Seq (lit ":")
  (Seq (Alt (lit "s3") (lit "s3-object-lambda")) (Seq (lit ":")
  (Seq (Star (Chars region_char)) (Seq (lit ":")
  (Seq (times 12 (Chars (char_in "0" "9"))) (Seq (lit ":accesspoint")
  (Seq (Chars slash_or_colon)
  (Seq (between 1 63 (Chars (λ a, alnum a || char_is "-" a || char_is "." a)))
       dollar)))))))))).

(** [^arn:(aws).*:s3-outposts:[a-z\-0-9]+:[0-9]{12}:outpost[/:][a-zA-Z0-9\-]{1,63}[/:]accesspoint[/:][a-zA-Z0-9\-]{1,63}$] *)
Definition OUTPOST_ARN : regex :=
  let name := between 1 63 (Chars (λ a, alnum a || char_is "-" a)) in
  Seq (lit "arn:aws") (Seq (Star (Chars any_char)) (Seq (lit ":s3-outposts:")
  (Seq (Chars region_char) (Seq (Star (Chars region_char)) (Seq (lit ":")
  (Seq (times 12 (Chars (char_in "0" "9"))) (Seq (lit ":outpost")
  (Seq (Chars slash_or_colon) (Seq name (Seq (Chars slash_or_colon)
  (Seq (lit "accesspoint") (Seq (Chars slash_or_colon) (Seq name dollar))))))))))))).

Definition VALID_S3_ARN : regex := Alt ACCESSPOINT_ARN OUTPOST_ARN.

(** [validate_bucket_name] of botocore's handlers. *)
Definition valid_bucket_name (bucket : string) : bool :=
  regex_match VALID_BUCKET bucket || regex_match VALID_S3_ARN bucket.

(** The text of the error is abridged. *)
Definition ParamValidationError (bucket : string) : exn :=
  OtherException "ParamValidationError" ("Invalid bucket name: " +:+ bucket).

(** A client that validates before it calls the service [api]. *)
Definition validated {S} (api : S3Client S) : S3Client S := {|
  list_objects_v2 req s :=
    if valid_bucket_name (Bucket req) then list_objects_v2 api req s
    else Raise (ParamValidationError (Bucket req));
  paginate req s :=
    if valid_bucket_name (Bucket req) then paginate api req s
    else [Raise (ParamValidationError (Bucket req))];
  head_object bucket key s :=
    if valid_bucket_name bucket then head_object api bucket key s
    else Raise (ParamValidationError bucket);
  upload_file path bucket key files s :=
    if valid_bucket_name bucket then upload_file api path bucket key files s
    else (Raise (ParamValidationError bucket), s);
  download_file bucket key path files s :=
    if valid_bucket_name bucket then download_file api bucket key path files s
    else (Raise (ParamValidationError bucket), s);
|}.

(** ** pandas tables *)

Inductive cell : Type := CStr (s : string) | CInt (z : Z) | CNaN.

Record DataFrame : Type := { columns : list string; rows : list (list cell) }.

(** A Python dict with string keys, in insertion order. *)
Definition pydict : Type := list (string * cell).

Fixpoint dict_get (k : string) (d : pydict) : option cell :=
  match d with
  | [] => None
  | (k', v) :: d' => if bool_decide (k' = k) then Some v else dict_get k d'
  end.

(** Keys in order of first appearance. *)
Fixpoint first_seen (seen l : list string) : list string :=
  match l with
  | [] => []
  | x :: l' =>
      if bool_decide (x ∈ seen) then first_seen seen l'
      else x :: first_seen (x :: seen) l'
  end.

(** [pd.DataFrame(data)] for a list of dicts. *)
Definition pd_DataFrame (data : list pydict) : DataFrame :=
  let cols := first_seen [] (data ≫= map fst) in
  {| columns := cols;
     rows := map (λ d, map (λ c, default CNaN (dict_get c d)) cols) data |}.

(** [pd.DataFrame(columns=cols)]. *)
Definition pd_DataFrame_columns (cols : list string) : DataFrame :=
  {| columns := cols; rows := [] |}.

(** The data-format libraries, over the same outside state (which holds
    the contents of local files too); [G] is [gpd.GeoDataFrame].  Each is
    handed a path and finds the local files that exist. *)
Record DataLibs (S G : Type) : Type := {
  to_file : G → string → gset string → S → outcome () * S;
  read_file : string → gset string → S → outcome G;
  read_excel : string → gset string → S → outcome DataFrame;
}.
Arguments to_file {S G} _ _ _ _ _.
Arguments read_file {S G} _ _ _ _.
Arguments read_excel {S G} _ _ _ _.

(** ** The world a call runs in *)

Record World (S : Type) : Type := {
  environ : gmap string string;     (* os.environ *)
  dotenv : gmap string string;      (* what the .env file defines *)
  stdout : list string;             (* lines printed so far *)
  temp_files : gset string;         (* temporary files that exist *)
  temp_seq : nat;                   (* supply of temporary names *)
  outside : S;                      (* the state behind the SDK *)
}.
Arguments environ {S} _.
Arguments dotenv {S} _.
Arguments stdout {S} _.
Arguments temp_files {S} _.
Arguments temp_seq {S} _.
Arguments outside {S} _.

Definition set_environ {S} (e : gmap string string) (w : World S) : World S :=
  {| environ := e; dotenv := dotenv w; stdout := stdout w;
     temp_files := temp_files w; temp_seq := temp_seq w; outside := outside w |}.

Definition set_stdout {S} (o : list string) (w : World S) : World S :=
  {| environ := environ w; dotenv := dotenv w; stdout := o;
     temp_files := temp_files w; temp_seq := temp_seq w; outside := outside w |}.

Definition set_temp {S} (t : gset string) (n : nat) (w : World S) : World S :=
  {| environ := environ w; dotenv := dotenv w; stdout := stdout w;
     temp_files := t; temp_seq := n; outside := outside w |}.

Definition set_outside {S} (s : S) (w : World S) : World S :=
  {| environ := environ w; dotenv := dotenv w; stdout := stdout w;
     temp_files := temp_files w; temp_seq := temp_seq w; outside := s |}.

(** ** The monad of facade calls *)

Definition M (S A : Type) : Type := World S → outcome A * World S.

#[global] Instance M_ret {S} : MRet (M S) := λ A a w, (Return a, w).

#[global] Instance M_bind {S} : MBind (M S) := λ A B f m w,
  match m w with
  | (Return a, w') => f a w'
  | (Raise e, w') => (Raise e, w')
  end.

Definition raise {S A} (e : exn) : M S A := λ w, (Raise e, w).

Definition print {S} (line : string) : M S () :=
  λ w, (Return (), set_stdout (stdout w ++ [line]) w).

(** A read-only SDK call. *)
Definition sdk_read {S A} (f : S → outcome A) : M S A :=
  λ w, (f (outside w), w).

(** A call on a local path: it is given the local files that exist, and it
    may change the outside state. *)
Definition local_read {S A} (f : gset string → S → outcome A) : M S A :=
  λ w, (f (temp_files w) (outside w), w).

Definition local_call {S A} (f : gset string → S → outcome A * S) : M S A :=
  λ w, let '(r, s) := f (temp_files w) (outside w) in (r, set_outside s w).

(** [try: body except ClientError as e: handler]: only a [ClientError] is
    caught, every other exception leaves the statement. *)
Definition try_except_ClientError {S A}
    (body : M S A) (handler : string → string → M S A) : M S A :=
  λ w, match body w with
       | (Raise (ClientError code msg), w') => handler code msg w'
       | r => r
       end.

(** [with ctx as x: body]: the context is entered, the body runs, and the
    context is left however the body ended; the statement ends as the body
    did unless leaving raises.  If entering raises, nothing else runs. *)
Definition with_statement {S A B}
    (enter : M S A) (leave : A → M S ()) (body : A → M S B) : M S B :=
  λ w, match enter w with
       | (Raise e, w1) => (Raise e, w1)
       | (Return x, w1) =>
           let '(r, w2) := body x w1 in
           match leave x w2 with
           | (Return _, w3) => (r, w3)
           | (Raise e, w3) => (Raise e, w3)
           end
       end.

(** The [n]th name [tempfile] would try with this suffix. *)
Definition candidate_name (n : nat) (suffix : string) : string :=
  "/tmp/tmp" +:+ pretty n +:+ suffix.

(** Candidates are tried from [n] on until one names no existing file;
    one try more than there are files is enough. *)
Fixpoint unused_index (fuel n : nat) (files : gset string) (suffix : string)
    : nat :=
  match fuel with
  | O => n
  | Datatypes.S fuel' =>
      if bool_decide (candidate_name n suffix ∈ files)
      then unused_index fuel' (Datatypes.S n) files suffix
      else n
  end.

Definition temp_index {S} (w : World S) (suffix : string) : nat :=
  unused_index (size (temp_files w)) (temp_seq w) (temp_files w) suffix.

(** The name [NamedTemporaryFile] picks in a world. *)
Definition temp_name {S} (w : World S) (suffix : string) : string :=
  candidate_name (temp_index w suffix) suffix.

Arguments candidate_name : simpl never.
Arguments temp_name : simpl never.

(** [NamedTemporaryFile(suffix=..., delete=True)]: creates the file under
    an unused name; [temp_file.name] is what the body uses of it. *)
Definition NamedTemporaryFile {S} (suffix : string) : M S string :=
  λ w, (Return (temp_name w suffix),
        set_temp ({[temp_name w suffix]} ∪ temp_files w)
          (Datatypes.S (temp_index w suffix)) w).

(** Leaving the context closes the file, and closing a file created with
    [delete=True] deletes it. *)
Definition close_temporary_file {S} (name : string) : M S () :=
  λ w, (Return (), set_temp (temp_files w ∖ {[name]}) (temp_seq w) w).

(** [with NamedTemporaryFile(suffix=..., delete=True) as temp_file: body]. *)
Definition with_NamedTemporaryFile {S A}
    (suffix : string) (body : string → M S A) : M S A :=
  with_statement (NamedTemporaryFile suffix) close_temporary_file body.

(** [load_dotenv()]: variables of the .env file are added to the process
    environment; a variable that is already set keeps its value. *)
Definition load_dotenv {S} : M S () :=
  λ w, (Return (), set_environ (environ w ∪ dotenv w) w).

(** [os.environ.get(name)]. *)
Definition os_environ_get {S} (name : string) : M S (option string) :=
  λ w, (Return (environ w !! name), w).

(** ** The facade *)

Record S3ClientHandler (S : Type) : Type := {
  _initialized : bool;
  s3_client : S3Client S;
  bucket_name : string;
}.
Arguments _initialized {S} _.
Arguments s3_client {S} _.
Arguments bucket_name {S} _.

(** [{folder}/{file_name}{ext}], the f-string every keyed method builds. *)
Definition s3_key (folder file_name ext : string) : string :=
  folder +:+ "/" +:+ file_name +:+ ext.

(** One dict of [data] in [list_files_with_sizes]. *)
Definition size_record (obj : S3Object) : pydict :=
  [("file_name", CStr (Key obj)); ("size_bytes", CInt (Size obj))].

(** [page.get("Contents", [])]. *)
Definition page_contents (page : ListObjectsV2Output) : list S3Object :=
  default [] (Contents page).

Section Facade.
Context {S G : Type}.
(** The S3 service as a process with a given environment reaches it
    (credentials, region and endpoint come from there), and the data-format
    libraries. *)
Variable s3_api : gmap string string → S3Client S.
Variable libs : DataLibs S G.

(** [boto3.client("s3")]: a validating client for the service the current
    environment designates.  Creating it sends nothing and is taken to
    succeed. *)
Definition boto3_client : M S (S3Client S) :=
  λ w, (Return (validated (s3_api (environ w))), w).

(** [_check_permissions], lines 29-44. *)
Definition _check_permissions (self : S3ClientHandler S) : M S () :=
  try_except_ClientError
    (sdk_read (list_objects_v2 (s3_client self)
       {| Bucket := bucket_name self; Prefix := None; MaxKeys := Some 1%nat |});;
     print ("Permissions verified for bucket: " +:+ bucket_name self))
    (λ error_code msg,
       if bool_decide (error_code = "AccessDenied") then
         raise (PermissionError ("Access denied to bucket: " +:+ bucket_name self))
       else if bool_decide (error_code = "NoSuchBucket") then
         raise (ValueError ("Bucket does not exist: " +:+ bucket_name self))
       else
         raise (ClientError error_code msg)).

(** [__init__], lines 13-27.  [None] is the omitted argument. *)
Definition __init__ (bucket_name : option string) : M S (S3ClientHandler S) :=
  load_dotenv;;
  s3 ← boto3_client;
  name ← match bucket_name with
         | None =>
             v ← os_environ_get "S3_BUCKET_NAME";
             match v with
             | Some b =>
                 if bool_decide (b = "") then
                   raise (ValueError "S3 bucket name not found in environment variables.")
                 else mret b
             | None =>
                 raise (ValueError "S3 bucket name not found in environment variables.")
             end
         | Some b => mret b
         end;
  let self := {| _initialized := true; s3_client := s3;
                 bucket_name := name |} in
  _check_permissions self;;
  mret self.

(** [list_files], lines 46-58: one [list_objects_v2] call. *)
Definition list_files (self : S3ClientHandler S) (folder : option string)
    : M S (list string) :=
  let folder := default "" folder in
  try_except_ClientError
    (response ← sdk_read (list_objects_v2 (s3_client self)
       {| Bucket := bucket_name self; Prefix := Some folder; MaxKeys := None |});
     match Contents response with
     | Some objs => mret (map Key objs)
     | None => mret []
     end)
    (λ _ msg, print ("Error listing files: " +:+ msg);; mret []).

Definition get_client (self : S3ClientHandler S) : S3Client S := s3_client self.

(** [upload_geodataframe], lines 66-77. *)
Definition upload_geodataframe (self : S3ClientHandler S) (gdf : G)
    (file_name : string) (folder : option string) : M S () :=
  let folder := default "amenities" folder in
  with_NamedTemporaryFile ".geojson" (λ temp_file_name,
    try_except_ClientError
      (local_call (to_file libs gdf temp_file_name);;
       let key := s3_key folder file_name ".geojson" in
       local_call (upload_file (s3_client self) temp_file_name (bucket_name self) key);;
       print ("Uploaded amenities to s3://" +:+ bucket_name self +:+ "/" +:+ key))
      (λ _ msg, print ("Error uploading file: " +:+ msg))).

(** [get_geodataframe], lines 79-91; Python's [None] is [None]. *)
Definition get_geodataframe (self : S3ClientHandler S)
    (file_name : string) (folder : option string) : M S (option G) :=
  let folder := default "amenities" folder in
  with_NamedTemporaryFile ".geojson" (λ temp_file_name,
    try_except_ClientError
      (let key := s3_key folder file_name ".geojson" in
       local_call (download_file (s3_client self) (bucket_name self) key temp_file_name);;
       gdf ← local_read (read_file libs temp_file_name);
       mret (Some gdf))
      (λ _ msg, print ("Error downloading file: " +:+ msg);; mret None)).

(** [get_excel_file], lines 93-105. *)
Definition get_excel_file (self : S3ClientHandler S)
    (file_name : string) (folder : option string) : M S (option DataFrame) :=
  let folder := default "amenities" folder in
  with_NamedTemporaryFile ".xlsx" (λ temp_file_name,
    try_except_ClientError
      (let key := s3_key folder file_name ".xlsx" in
       local_call (download_file (s3_client self) (bucket_name self) key temp_file_name);;
       df ← local_read (read_excel libs temp_file_name);
       mret (Some df))
      (λ _ msg, print ("Error downloading file: " +:+ msg);; mret None)).

(** [check_geodataframe_exists], lines 107-120. *)
Definition check_geodataframe_exists (self : S3ClientHandler S)
    (file_name : string) (folder : option string) : M S bool :=
  let folder := default "amenities" folder in
  try_except_ClientError
    (let key := s3_key folder file_name ".geojson" in
     sdk_read (head_object (s3_client self) (bucket_name self) key);;
     mret true)
    (λ code msg,
       if bool_decide (code = "404") then mret false
       else print ("Error checking file existence: " +:+ msg);; mret false).

(** [check_file_exists], lines 122-135. *)
Definition check_file_exists (self : S3ClientHandler S)
    (file_name : string) (folder : option string) : M S bool :=
  let folder := default "" folder in
  try_except_ClientError
    (let key := folder +:+ "/" +:+ file_name in
     sdk_read (head_object (s3_client self) (bucket_name self) key);;
     mret true)
    (λ code msg,
       if bool_decide (code = "404") then mret false
       else print ("Error checking file existence: " +:+ msg);; mret false).

(** The [for page in pages] loop of [list_files_with_sizes]: [data]
    grows page by page; a page that raises ends the loop. *)
Fixpoint collect_pages (pages : list (outcome ListObjectsV2Output))
    (data : list pydict) : outcome (list pydict) :=
  match pages with
  | [] => Return data
  | Return page :: rest =>
      collect_pages rest (data ++ map size_record (page_contents page))
  | Raise e :: _ => Raise e
  end.

(** [list_files_with_sizes], lines 137-156. *)
Definition list_files_with_sizes (self : S3ClientHandler S)
    (folder : option string) : M S DataFrame :=
  let folder := default "" folder in
  try_except_ClientError
    (data ← sdk_read (λ s,
       collect_pages
         (paginate (s3_client self)
            {| Bucket := bucket_name self; Prefix := Some folder; MaxKeys := None |} s)
         []);
     match data with
     | [] => mret (pd_DataFrame_columns ["file_name"; "size_bytes"])
     | _ => mret (pd_DataFrame data)
     end)
    (λ _ msg,
       print ("Error listing files: " +:+ msg);;
       mret (pd_DataFrame_columns ["file_name"; "size_bytes"])).
End Facade.

(** ** A bucket store behind the interface

    The service the claims about listings and probes speak of: named
    buckets holding objects, listed in key order and in pages.  One response carries at most
    [S3_PAGE_LIMIT] keys whatever [MaxKeys] asks for (the service's
    documented cap); the paginator follows the continuation until a page is
    not truncated.  The store is read-only: transfers are refused. *)

Definition S3_PAGE_LIMIT : nat := 1000.

Definition under_prefix (prefix : string) (obj : S3Object) : bool :=
  String.prefix prefix (Key obj).

(** The order a listing comes in: keys compared byte by byte. *)
Definition key_le (a b : S3Object) : Prop := String.leb (Key a) (Key b) = true.

#[global] Instance key_le_dec a b : Decision (key_le a b).
Proof. unfold key_le. apply _. Defined.

(** The objects under a prefix, in listing order. *)
Definition matching (prefix : option string) (objs : list S3Object)
    : list S3Object :=
  merge_sort key_le (List.filter (under_prefix (default "" prefix)) objs).

Definition page_size (req : ListObjectsV2Request) : nat :=
  default S3_PAGE_LIMIT (MaxKeys req) `min` S3_PAGE_LIMIT.

(** The pages of a listing of [objs], [cap] keys at a time. *)
Fixpoint listing_pages (fuel cap : nat) (objs : list S3Object)
    : list ListObjectsV2Output :=
  match fuel with
  | O => []
  | Datatypes.S fuel' =>
      match take cap objs, drop cap objs with
      | [], [] => [ {| Contents := None; IsTruncated := false |} ]
      | page, [] => [ {| Contents := Some page; IsTruncated := false |} ]
      | page, more =>
          {| Contents := Some page; IsTruncated := true |}
            :: listing_pages fuel' cap more
      end
  end.

Definition no_such_bucket : exn :=
  ClientError "NoSuchBucket"
    "An error occurred (NoSuchBucket) when calling the ListObjectsV2 operation: The specified bucket does not exist".

Definition not_found : exn :=
  ClientError "404"
    "An error occurred (404) when calling the HeadObject operation: Not Found".

Definition read_only : exn :=
  ClientError "AccessDenied"
    "An error occurred (AccessDenied): Access Denied".

Definition store_pages (req : ListObjectsV2Request)
    (s : gmap string (list S3Object)) : list (outcome ListObjectsV2Output) :=
  match s !! Bucket req with
  | None => [Raise no_such_bucket]
  | Some objs =>
      let found := matching (Prefix req) objs in
      map Return (listing_pages (1 + length found) (page_size req) found)
  end.

Definition store_client : S3Client (gmap string (list S3Object)) := {|
  list_objects_v2 req s :=
    match store_pages req s with
    | first :: _ => first
    | [] => Return {| Contents := None; IsTruncated := false |}
    end;
  paginate := store_pages;
  head_object bucket key s :=
    match s !! bucket with
    | Some objs =>
        if bool_decide (key ∈ map Key objs) then Return () else Raise not_found
    | None => Raise not_found
    end;
  upload_file _ _ _ _ s := (Raise read_only, s);
  download_file _ _ _ _ s := (Raise read_only, s);
|}.

(** A world with nothing in it but the outside state. *)
Definition initial_world {S} (s : S) : World S :=
  {| environ := ∅; dotenv := ∅; stdout := []; temp_files := ∅;
     temp_seq := 0; outside := s |}.

(** A handler as [__init__] leaves it. *)
Definition handler_for {S} (c : S3Client S) (bucket : string) : S3ClientHandler S :=
  {| _initialized := true; s3_client := c; bucket_name := bucket |}.

(** [n] objects ["data/0"], ["data/1"], ... of [i] bytes each. *)
Definition numbered_objects (n : nat) : list S3Object :=
  map (λ i, {| Key := "data/" +:+ pretty i; Size := Z.of_nat i |}) (seq 0 n).

(** A client whose every call raises [e], and one whose every call
    succeeds on an empty bucket; libraries that do nothing. *)
Definition failing_client (e : exn) : S3Client () := {|
  list_objects_v2 _ _ := Raise e;
  paginate _ _ := [Raise e];
  head_object _ _ _ := Raise e;
  upload_file _ _ _ _ s := (Raise e, s);
  download_file _ _ _ _ s := (Raise e, s);
|}.

Definition accepting_client : S3Client () := {|
  list_objects_v2 _ _ := Return {| Contents := None; IsTruncated := false |};
  paginate _ _ := [Return {| Contents := None; IsTruncated := false |}];
  head_object _ _ _ := Return ();
  upload_file _ _ _ _ s := (Return (), s);
  download_file _ _ _ _ s := (Return (), s);
|}.

Definition idle_libs : DataLibs () () := {|
  to_file _ _ _ s := (Return (), s);
  read_file _ _ _ := Return ();
  read_excel _ _ _ := Return (pd_DataFrame_columns []);
|}.

(** Libraries whose every call raises [e]. *)
Definition failing_libs (e : exn) : DataLibs () () := {|
  to_file _ _ _ s := (Raise e, s);
  read_file _ _ _ := Raise e;
  read_excel _ _ _ := Raise e;
|}.

(** A client that answers every probe with a service error whose text is
    the key it was asked for, so that a printed line shows the request. *)
Definition echo_client : S3Client () := {|
  list_objects_v2 req _ := Raise (ClientError "500" (default "" (Prefix req)));
  paginate req _ := [Raise (ClientError "500" (default "" (Prefix req)))];
  head_object _ key _ := Raise (ClientError "500" key);
  upload_file _ _ key _ s := (Raise (ClientError "500" key), s);
  download_file _ key _ _ s := (Raise (ClientError "500" key), s);
|}.

(** What [os.environ.get('S3_BUCKET_NAME')] finds in the constructor, that
    is after [load_dotenv()] has run in world [w]. *)
Definition configured_bucket_name {S} (w : World S) : option string :=
  (environ w ∪ dotenv w) !! "S3_BUCKET_NAME".

(** The world [load_dotenv()] leaves. *)
Definition after_load_dotenv {S} (w : World S) : World S :=
  set_environ (environ w ∪ dotenv w) w.

(** The client [__init__] creates in world [w]: [boto3.client("s3")] runs
    after [load_dotenv()]. *)
Definition created_client {S} (s3_api : gmap string string → S3Client S)
    (w : World S) : S3Client S :=
  validated (s3_api (environ w ∪ dotenv w)).

(** The request of the construction-time probe. *)
Definition permission_probe (bucket : string) : ListObjectsV2Request :=
  {| Bucket := bucket; Prefix := None; MaxKeys := Some 1%nat |}.

(** A world whose process environment and .env file are given. *)
Definition world_with_env {S} (env file : gmap string string) (s : S) : World S :=
  {| environ := env; dotenv := file; stdout := []; temp_files := ∅;
     temp_seq := 0; outside := s |}.

(** The row of the table for one object. *)
Definition size_row (obj : S3Object) : list cell :=
  [CStr (Key obj); CInt (Size obj)].

(** The table [list_files_with_sizes] is to return for these objects. *)
Definition size_table (objs : list S3Object) : DataFrame :=
  {| columns := ["file_name"; "size_bytes"]; rows := map size_row objs |}.

(** The spec's [ObjectExists(name, folder, geoVariant)]: the two probes
    under one name, and the key each is documented to ask for. *)
Definition ObjectExists {S} (geoVariant : bool) (self : S3ClientHandler S)
    (file_name : string) (folder : option string) : M S bool :=
  if geoVariant then check_geodataframe_exists self file_name folder
  else check_file_exists self file_name folder.

Definition probed_key (geoVariant : bool) (file_name : string)
    (folder : option string) : string :=
  if geoVariant then default "amenities" folder +:+ "/" +:+ file_name +:+ ".geojson"
  else default "" folder +:+ "/" +:+ file_name.

(** ** A store that takes transfers

    Buckets of keyed bodies and a local disk of files, with GeoJSON text
    standing for a table: the serialiser writes the text to the path, an
    upload copies a file into a bucket that exists, a download copies a
    body to a path, the reader returns the text of the file. *)

Record Disk : Type := {
  buckets : gmap string (gmap string string);
  local_files : gmap string string;
}.

Definition disk_objects (d : Disk) : gmap string (list S3Object) :=
  (λ objs : gmap string string,
     (λ kv : string * string,
        {| Key := kv.1; Size := Z.of_nat (String.length kv.2) |})
       <$> map_to_list objs)
    <$> buckets d.

Definition no_such_file (path : string) : exn :=
  OtherException "FileNotFoundError" path.

Definition disk_body (d : Disk) (bucket key : string) : option string :=
  buckets d !! bucket ≫= λ objs, objs !! key.

Definition disk_client : S3Client Disk := {|
  list_objects_v2 req d := list_objects_v2 store_client req (disk_objects d);
  paginate req d := paginate store_client req (disk_objects d);
  head_object bucket key d :=
    match disk_body d bucket key with
    | Some _ => Return ()
    | None => Raise not_found
    end;
  upload_file path bucket key _ d :=
    match local_files d !! path, buckets d !! bucket with
    | Some body, Some objs =>
        (Return (),
         {| buckets := <[bucket := <[key := body]> objs]> (buckets d);
            local_files := local_files d |})
    | None, _ => (Raise (no_such_file path), d)
    | _, None => (Raise no_such_bucket, d)
    end;
  download_file bucket key path _ d :=
    match disk_body d bucket key with
    | Some body =>
        (Return (),
         {| buckets := buckets d; local_files := <[path := body]> (local_files d) |})
    | None => (Raise not_found, d)
    end;
|}.

Definition disk_libs : DataLibs Disk string := {|
  to_file gdf path _ d :=
    (Return (),
     {| buckets := buckets d; local_files := <[path := gdf]> (local_files d) |});
  read_file path _ d :=
    match local_files d !! path with
    | Some body => Return body
    | None => Raise (no_such_file path)
    end;
  read_excel path _ d :=
    match local_files d !! path with
    | Some body => Return {| columns := ["text"]; rows := [[CStr body]] |}
    | None => Raise (no_such_file path)
    end;
|}.

(** A disk with one empty bucket and no files. *)
Definition empty_bucket (bucket : string) : Disk :=
  {| buckets := {[ bucket := ∅ ]}; local_files := ∅ |}.

(** The local files there are while a call runs its block with a
    temporary file of this suffix. *)
Definition files_during {S} (w : World S) (suffix : string) : gset string :=
  {[temp_name w suffix]} ∪ temp_files w.

(** The world a call that scoped a temporary file with [suffix] leaves
    from [w]: outside state [s], standard output [out]. *)
Definition after_temp_call {S} (w : World S) (suffix : string) (s : S)
    (out : list string) : World S :=
  {| environ := environ w; dotenv := dotenv w; stdout := out;
     temp_files := temp_files w;
     temp_seq := Datatypes.S (temp_index w suffix); outside := s |}.






(** The [file_name] column of a table of [list_files_with_sizes]. *)
Definition file_names (df : DataFrame) : list string :=
  omap (λ row, match row with CStr name :: _ => Some name | _ => None end)
       (rows df).

(** A call that prints at most one line and leaves earlier output alone. *)
Definition prints_at_most_one_line {S A} (m : M S A) : Prop :=
  ∀ w, ∃ lines, stdout (m w).2 = stdout w ++ lines ∧ (length lines ≤ 1)%nat.

(** * Properties *)

Ltac run :=
  unfold try_except_ClientError, sdk_read, print, raise,
    mbind, M_bind, mret, M_ret; simpl.

(** ** Existence probes *)

Section Probes.
Context {S : Type}.
Implicit Types (self : S3ClientHandler S) (w : World S).

(** Both probes are one [head_object] wrapped in the same handler. *)
Lemma ObjectExists_unfold geo self file_name folder w :
  ObjectExists geo self file_name folder w =
  match head_object (s3_client self) (bucket_name self)
          (probed_key geo file_name folder) (outside w) with
  | Return _ => (Return true, w)
  | Raise (ClientError code msg) =>
      if bool_decide (code = "404") then (Return false, w)
      else (Return false,
            set_stdout (stdout w ++ ["Error checking file existence: " +:+ msg]) w)
  | Raise e => (Raise e, w)
  end.
Proof.
  destruct geo; unfold ObjectExists, check_geodataframe_exists,
    check_file_exists, probed_key, s3_key; run;
    destruct (head_object _ _ _ _) as [[]|[code msg| | |]]; try reflexivity;
    case_bool_decide; reflexivity.
Qed.

(** C3: each existence probe returns true when the metadata probe
    succeeds, false with nothing printed when the service answers 404,
    false with one printed line on any other service error, and its
    outcome is never a raised service error. *)
Theorem existence_probe_outcomes geo self file_name folder w :
  let head := head_object (s3_client self) (bucket_name self)
                (probed_key geo file_name folder) (outside w) in
  let r := ObjectExists geo self file_name folder w in
  (∀ u, head = Return u → r = (Return true, w)) ∧
  (∀ msg, head = Raise (ClientError "404" msg) → r = (Return false, w)) ∧
  (∀ code msg, head = Raise (ClientError code msg) → code ≠ "404" →
     r = (Return false,
          set_stdout (stdout w ++ ["Error checking file existence: " +:+ msg]) w)) ∧
  raises_client_error r.1 = false.
Proof.
  intros head r. subst r. rewrite ObjectExists_unfold. fold head.
  repeat split.
  - intros u ->. reflexivity.
  - intros msg ->. reflexivity.
  - intros code msg -> Hne. rewrite bool_decide_eq_false_2; done.
  - destruct head as [[]|[code msg| | |]]; try reflexivity.
    case_bool_decide; reflexivity.
Qed.

(** C10: with the folder given, the geospatial probe is the generic probe
    applied to the name with [".geojson"] appended: same outcome, same
    world. *)
Theorem check_geodataframe_exists_as_check_file_exists
    self (file_name folder : string) w :
  check_geodataframe_exists self file_name (Some folder) w =
  check_file_exists self (file_name +:+ ".geojson") (Some folder) w.
Proof. reflexivity. Qed.

(** With the folder omitted the two differ in their defaults. *)
Lemma default_folders_differ (file_name : string) :
  probed_key true file_name None = "amenities/" +:+ file_name +:+ ".geojson" ∧
  probed_key false (file_name +:+ ".geojson") None = "/" +:+ file_name +:+ ".geojson".
Proof. split; reflexivity. Qed.

(** The key [check_file_exists] asks for when no folder is given. *)
Lemma check_file_exists_default_key (file_name : string) :
  probed_key false file_name None = "/" +:+ file_name.
Proof. reflexivity. Qed.
End Probes.

(** Each case of C3 on a run: a stored object, a missing one, a service
    failure that is not a 404. *)
Lemma existence_probe_outcomes_witness :
  let w := initial_world
             ({[ "b" := [ {| Key := "amenities/parks.geojson"; Size := 10 |} ] ]}
                : gmap string (list S3Object)) in
  let w' := initial_world () in
  ObjectExists true (handler_for store_client "b") "parks" None w = (Return true, w) ∧
  ObjectExists false (handler_for store_client "b") "parks" None w = (Return false, w) ∧
  ObjectExists true (handler_for (failing_client (ClientError "500" "boom")) "b")
      "parks" None w'
    = (Return false, set_stdout ["Error checking file existence: boom"] w').
Proof.
  intros w w'. split; [|split].
  - exact (proj1 (existence_probe_outcomes true (handler_for store_client "b")
                    "parks" None w) () eq_refl).
  - exact (proj1 (proj2 (existence_probe_outcomes false (handler_for store_client "b")
                    "parks" None w)) _ eq_refl).
  - apply (proj1 (proj2 (proj2 (existence_probe_outcomes true
             (handler_for (failing_client (ClientError "500" "boom")) "b")
             "parks" None w'))) "500" "boom" eq_refl).
    discriminate.
Defined.

(** C4: with no folder given, [check_file_exists] does not ask for the raw
    key.  In a bucket that holds ["report.csv"] the probe for
    ["report.csv"] answers false, and the key it sends is ["/report.csv"]. *)
Theorem check_file_exists_no_folder_leading_slash :
  let s : gmap string (list S3Object) :=
    {[ "b" := [ {| Key := "report.csv"; Size := 2048 |} ] ]} in
  head_object store_client "b" "report.csv" s = Return () ∧
  check_file_exists (handler_for store_client "b") "report.csv" None (initial_world s)
    = (Return false, initial_world s) ∧
  check_file_exists (handler_for echo_client "b") "report.csv" None (initial_world ())
    = (Return false,
       set_stdout ["Error checking file existence: /report.csv"] (initial_world ())).
Proof. intros s. repeat split. Qed.

(** ** Listing keys *)

(** [list_files] is one [list_objects_v2] call and a case on its outcome. *)
Lemma list_files_unfold {S} (self : S3ClientHandler S) folder (w : World S) :
  list_files self folder w =
  match list_objects_v2 (s3_client self)
          {| Bucket := bucket_name self; Prefix := Some (default "" folder);
             MaxKeys := None |} (outside w) with
  | Return response => (Return (map Key (default [] (Contents response))), w)
  | Raise (ClientError _ msg) =>
      (Return [], set_stdout (stdout w ++ ["Error listing files: " +:+ msg]) w)
  | Raise e => (Raise e, w)
  end.
Proof.
  unfold list_files; run.
  destruct (list_objects_v2 _ _ _) as [[[objs|] tr]|[code msg| | |]]; reflexivity.
Qed.

(** One response of the bucket store: the first [page_size] matches. *)
Lemma store_list_objects_v2 (req : ListObjectsV2Request)
    (s : gmap string (list S3Object)) (objs : list S3Object) :
  s !! Bucket req = Some objs →
  ∃ response, list_objects_v2 store_client req s = Return response ∧
    default [] (Contents response) = take (page_size req) (matching (Prefix req) objs).
Proof.
  intros Hb. unfold store_client, list_objects_v2, store_pages. rewrite Hb.
  cbn [listing_pages Nat.add]. 
  destruct (take _ _) as [|o page], (drop _ _); simpl; eauto.
Qed.

(** Against the bucket store, [list_files] returns the keys of the first
    response only: at most [S3_PAGE_LIMIT] of the keys under the prefix. *)
Lemma list_files_store (b : string) (objs : list S3Object)
    (folder : option string) (w : World (gmap string (list S3Object))) :
  outside w !! b = Some objs →
  list_files (handler_for store_client b) folder w =
  (Return (map Key (take S3_PAGE_LIMIT (matching (Some (default "" folder)) objs))), w).
Proof.
  intros Hb. rewrite list_files_unfold.
  edestruct (store_list_objects_v2
    {| Bucket := b; Prefix := Some (default "" folder); MaxKeys := None |})
    as (response & -> & ->); [exact Hb|]. reflexivity.
Qed.

(** Up to the limit the listing is complete. *)
Lemma list_files_store_complete b objs folder w :
  outside w !! b = Some objs →
  (length (matching (Some (default "" folder)) objs) ≤ S3_PAGE_LIMIT)%nat →
  list_files (handler_for store_client b) folder w =
  (Return (map Key (matching (Some (default "" folder)) objs)), w).
Proof.
  intros Hb Hlen. rewrite (list_files_store _ _ _ _ Hb).
  by rewrite firstn_all2.
Qed.

(** Past the limit keys are missing. *)
Lemma list_files_store_truncated b objs folder w keys w' :
  outside w !! b = Some objs →
  (S3_PAGE_LIMIT < length (matching (Some (default "" folder)) objs))%nat →
  list_files (handler_for store_client b) folder w = (Return keys, w') →
  length keys = S3_PAGE_LIMIT.
Proof.
  intros Hb Hlen. rewrite (list_files_store _ _ _ _ Hb).
  intros [= <- _]. rewrite length_map, length_take. lia.
Qed.

(** C1: [list_files] does not return every key under the prefix.  With
    1001 objects under ["data/"] it returns the first 1000 keys of the
    listing; ["data/999"], the last in key order, is stored under the
    prefix and is not in the result. *)
Theorem list_files_misses_keys_past_first_page :
  let objs := numbered_objects 1001 in
  let w := initial_world ({[ "b" := objs ]} : gmap string (list S3Object)) in
  ∃ keys,
    list_files (handler_for store_client "b") (Some "data/") w = (Return keys, w) ∧
    length keys = 1000%nat ∧
    {| Key := "data/999"; Size := 999 |} ∈ matching (Some "data/") objs ∧
    "data/999" ∉ keys.
Proof.
  intros objs w.
  eexists. split; [apply list_files_store; reflexivity|].
  split; [vm_compute; reflexivity|].
  split.
  - apply (bool_decide_unpack _). vm_compute. reflexivity.
  - intros Hin. apply (bool_decide_pack _) in Hin. vm_compute in Hin. exact Hin.
Qed.




(** ** Construction *)

Section Construction.
Context {S : Type} (s3_api : gmap string string → S3Client S).
Implicit Types (w : World S) (self : S3ClientHandler S).

Lemma _check_permissions_unfold self w :
  _check_permissions self w =
  match list_objects_v2 (s3_client self) (permission_probe (bucket_name self))
          (outside w) with
  | Return _ =>
      (Return (),
       set_stdout (stdout w ++ ["Permissions verified for bucket: " +:+ bucket_name self]) w)
  | Raise (ClientError code msg) =>
      (Raise (if bool_decide (code = "AccessDenied") then
                PermissionError ("Access denied to bucket: " +:+ bucket_name self)
              else if bool_decide (code = "NoSuchBucket") then
                ValueError ("Bucket does not exist: " +:+ bucket_name self)
              else ClientError code msg), w)
  | Raise e => (Raise e, w)
  end.
Proof.
  unfold _check_permissions, permission_probe; run.
  destruct (list_objects_v2 _ _ _) as [r|[code msg| | |]]; try reflexivity.
  repeat case_bool_decide; reflexivity.
Qed.

(** Once a name is resolved, construction is the permission probe. *)
Lemma __init___resolved arg w name :
  arg = Some name ∨
    (arg = None ∧ configured_bucket_name w = Some name ∧ name ≠ "") →
  __init__ s3_api arg w =
  match _check_permissions (handler_for (created_client s3_api w) name) (after_load_dotenv w) with
  | (Return _, w') => (Return (handler_for (created_client s3_api w) name), w')
  | (Raise e, w') => (Raise e, w')
  end.
Proof.
  unfold configured_bucket_name.
  intros [->|(-> & Hcfg & Hne)];
    unfold __init__, load_dotenv, os_environ_get, boto3_client.
  - reflexivity.
  - unfold mbind, M_bind. cbn [set_environ environ]. rewrite Hcfg.
    rewrite bool_decide_eq_false_2 by done. reflexivity.
Qed.

(** Without a resolved name construction stops before the probe. *)
Lemma __init___unresolved w :
  configured_bucket_name w = None ∨ configured_bucket_name w = Some "" →
  __init__ s3_api None w =
  (Raise (ValueError "S3 bucket name not found in environment variables."),
   after_load_dotenv w).
Proof.
  unfold configured_bucket_name.
  intros Hcfg; unfold __init__, load_dotenv, os_environ_get, boto3_client.
  unfold mbind, M_bind. cbn [set_environ environ].
  destruct Hcfg as [-> | ->]; reflexivity.
Qed.
End Construction.

Section ConstructionClaims.
Context {S : Type} (s3_api : gmap string string → S3Client S).
Implicit Types (w : World S) (self : S3ClientHandler S).

(** How the environment the constructor reads comes about: a variable the
    process already has keeps its value, even an empty one; a variable it
    lacks takes the value of the .env file. *)
Lemma configured_bucket_name_cases w :
  configured_bucket_name w =
  match environ w !! "S3_BUCKET_NAME" with
  | Some v => Some v
  | None => dotenv w !! "S3_BUCKET_NAME"
  end.
Proof.
  unfold configured_bucket_name. rewrite lookup_union.
  destruct (environ w !! _), (dotenv w !! _); reflexivity.
Qed.

(** C6: when the construction-time listing probe fails, construction
    fails, and with what depends on the reported reason: AccessDenied
    gives a [PermissionError], NoSuchBucket a [ValueError] saying the
    bucket does not exist, and anything else leaves the constructor as it
    was raised. *)
Theorem construction_fails_by_probe_reason arg w name e :
  arg = Some name ∨
    (arg = None ∧ configured_bucket_name w = Some name ∧ name ≠ "") →
  list_objects_v2 (created_client s3_api w) (permission_probe name) (outside w) = Raise e →
  let r := (__init__ s3_api arg w).1 in
  (∃ e', r = Raise e') ∧
  (∀ msg, e = ClientError "AccessDenied" msg →
     r = Raise (PermissionError ("Access denied to bucket: " +:+ name))) ∧
  (∀ msg, e = ClientError "NoSuchBucket" msg →
     r = Raise (ValueError ("Bucket does not exist: " +:+ name))) ∧
  ((∀ msg, e ≠ ClientError "AccessDenied" msg) →
   (∀ msg, e ≠ ClientError "NoSuchBucket" msg) →
     r = Raise e).
Proof.
  intros Hname Hprobe r. subst r.
  rewrite (__init___resolved s3_api arg w name Hname), _check_permissions_unfold.
  cbn [handler_for s3_client bucket_name after_load_dotenv set_environ outside].
  rewrite Hprobe.
  split; [|split; [|split]].
  - destruct e; eauto.
  - intros msg ->. reflexivity.
  - intros msg ->. reflexivity.
  - intros Hd Hb. destruct e as [code msg| | |]; try reflexivity.
    case_bool_decide as H1; [subst; by destruct (Hd msg)|].
    case_bool_decide as H2; [subst; by destruct (Hb msg)|].
    reflexivity.
Qed.

(** C7: with no argument and no usable value of [S3_BUCKET_NAME] in the
    environment the constructor reads, construction raises the
    configuration error. *)
Theorem construction_needs_a_bucket_name w :
  configured_bucket_name w = None ∨ configured_bucket_name w = Some "" →
  (__init__ s3_api None w).1 =
  Raise (ValueError "S3 bucket name not found in environment variables.").
Proof. intros H. by rewrite (__init___unresolved s3_api w H). Qed.

(** A construction that returns has passed the listing probe on the name
    it keeps, with the client it created; with no argument that name comes
    from the environment, with an argument it is the argument. *)
Lemma construction_returns_resolved_name arg w self w' :
  __init__ s3_api arg w = (Return self, w') →
  s3_client self = created_client s3_api w ∧
  (∃ r, list_objects_v2 (created_client s3_api w)
          (permission_probe (bucket_name self)) (outside w) = Return r) ∧
  match arg with
  | None => configured_bucket_name w = Some (bucket_name self) ∧ bucket_name self ≠ ""
  | Some b => bucket_name self = b
  end.
Proof.
  intros Hinit.
  assert (∀ name,
    arg = Some name ∨
      (arg = None ∧ configured_bucket_name w = Some name ∧ name ≠ "") →
    self = handler_for (created_client s3_api w) name ∧
    ∃ r, list_objects_v2 (created_client s3_api w) (permission_probe name) (outside w)
         = Return r) as Hres.
  { intros name Hname. rewrite (__init___resolved s3_api arg w name Hname) in Hinit.
    rewrite _check_permissions_unfold in Hinit.
    cbn [handler_for s3_client bucket_name after_load_dotenv set_environ outside]
      in Hinit.
    destruct (list_objects_v2 _ _ _) as [r|[]]; simplify_eq; eauto. }
  destruct arg as [b|].
  - destruct (Hres b) as (-> & r & Hr); [by left|]. simpl. eauto.
  - destruct (configured_bucket_name w) as [name|] eqn:Hcfg.
    + destruct (decide (name = "")) as [->|Hne].
      * rewrite (__init___unresolved s3_api w) in Hinit by (right; done). done.
      * destruct (Hres name) as (-> & r & Hr); [right; done|]. simpl. eauto.
    + rewrite (__init___unresolved s3_api w) in Hinit by (left; done). done.
Qed.

(** The client [boto3.client] returns sends a listing only for a bucket
    name that passes its validation. *)
Lemma validated_listing_returns (api : S3Client S) req s r :
  list_objects_v2 (validated api) req s = Return r →
  valid_bucket_name (Bucket req) = true.
Proof. simpl. by destruct (valid_bucket_name (Bucket req)). Qed.

(** C2: after construction returns, the facade's bucket name is not empty,
    whatever the argument: a name from the environment is checked by the
    constructor, and a name given as argument, the empty string included,
    has to pass the validation of the client before the listing probe can
    return. *)
Theorem construction_establishes_bucket_name arg w self w' :
  __init__ s3_api arg w = (Return self, w') →
  bucket_name self ≠ "" ∧ valid_bucket_name (bucket_name self) = true.
Proof.
  intros Hinit.
  destruct (construction_returns_resolved_name _ _ _ _ Hinit) as (_ & [r Hr] & _).
  apply validated_listing_returns in Hr. simpl in Hr.
  split; [|exact Hr]. intros Hempty. rewrite Hempty in Hr.
  vm_compute in Hr. discriminate.
Qed.

(** Given the empty string, construction fails at the probe, before any
    request is sent. *)
Lemma construction_refuses_empty_argument w :
  __init__ s3_api (Some "") w
    = (Raise (ParamValidationError ""), after_load_dotenv w).
Proof.
  rewrite (__init___resolved s3_api (Some "") w "") by (by left).
  by rewrite _check_permissions_unfold.
Qed.
End ConstructionClaims.

(** C6 on runs: a denied bucket named by argument, a missing bucket named
    by the environment, a throttled request. *)
Lemma construction_fails_by_probe_reason_witness :
  let denied := failing_client (ClientError "AccessDenied" "Access Denied") in
  let throttled := failing_client (ClientError "SlowDown" "Reduce your request rate") in
  let w0 : World () := initial_world () in
  let w : World (gmap string (list S3Object)) :=
    world_with_env {[ "S3_BUCKET_NAME" := "lake" ]} ∅ ∅ in
  (list_objects_v2 (created_client (λ _, denied) w0) (permission_probe "vault") ()
     = Raise (ClientError "AccessDenied" "Access Denied") ∧
   (__init__ (λ _, denied) (Some "vault") w0).1
     = Raise (PermissionError "Access denied to bucket: vault")) ∧
  (configured_bucket_name w = Some "lake" ∧
   list_objects_v2 (created_client (λ _, store_client) w) (permission_probe "lake")
       (outside w)
     = Raise no_such_bucket ∧
   (__init__ (λ _, store_client) None w).1
     = Raise (ValueError "Bucket does not exist: lake")) ∧
  (list_objects_v2 (created_client (λ _, throttled) w0) (permission_probe "vault") ()
     = Raise (ClientError "SlowDown" "Reduce your request rate") ∧
   (__init__ (λ _, throttled) (Some "vault") w0).1
     = Raise (ClientError "SlowDown" "Reduce your request rate")).
Proof.
  intros denied throttled w0 w. split; [|split].
  - split; [reflexivity|].
    exact (proj1 (proj2 (construction_fails_by_probe_reason (λ _, denied) (Some "vault")
             w0 "vault" _ (or_introl eq_refl) eq_refl))
             "Access Denied" eq_refl).
  - split; [reflexivity|]. split; [reflexivity|].
    refine (proj1 (proj2 (proj2 (construction_fails_by_probe_reason (λ _, store_client)
             None w "lake" no_such_bucket _ eq_refl))) _ eq_refl).
    right. split; [reflexivity|]. split; [reflexivity|discriminate].
  - split; [reflexivity|].
    refine (proj2 (proj2 (proj2 (construction_fails_by_probe_reason (λ _, throttled)
             (Some "vault") w0 "vault" _ (or_introl eq_refl) eq_refl)))
             _ _); intros msg; discriminate.
Defined.

(** C7 on runs: nothing set anywhere; and a variable set to the empty
    string in the process, which the .env file does not replace. *)
Lemma construction_needs_a_bucket_name_witness :
  let unset : World () := initial_world () in
  let blank : World () :=
    world_with_env {[ "S3_BUCKET_NAME" := "" ]} {[ "S3_BUCKET_NAME" := "lake" ]} () in
  (configured_bucket_name unset = None ∧
   (__init__ (λ _, accepting_client) None unset).1
     = Raise (ValueError "S3 bucket name not found in environment variables.")) ∧
  (configured_bucket_name blank = Some "" ∧
   (__init__ (λ _, accepting_client) None blank).1
     = Raise (ValueError "S3 bucket name not found in environment variables.")).
Proof.
  intros unset blank. split; (split; [reflexivity|]).
  - apply (construction_needs_a_bucket_name (λ _, accepting_client) unset).
    left. reflexivity.
  - apply (construction_needs_a_bucket_name (λ _, accepting_client) blank).
    right. reflexivity.
Defined.

(** The .env file does supply the name when the process has none. *)
Lemma construction_reads_dotenv :
  let w := world_with_env ∅ {[ "S3_BUCKET_NAME" := "lake" ]} () in
  (__init__ (λ _, accepting_client) None w).1
    = Return (handler_for (validated accepting_client) "lake").
Proof. reflexivity. Qed.

(** C2 on runs: a name from the environment and a name given are kept and
    are not empty; the empty string given is refused, even by a service
    that would accept it. *)
Lemma construction_establishes_bucket_name_witness :
  let w : World () := world_with_env {[ "S3_BUCKET_NAME" := "lake" ]} ∅ () in
  let w0 : World () := initial_world () in
  let verified (name : string) (w : World ()) :=
    set_stdout ["Permissions verified for bucket: " +:+ name] (after_load_dotenv w) in
  (__init__ (λ _, accepting_client) None w
     = (Return (handler_for (validated accepting_client) "lake"), verified "lake" w) ∧
   "lake" ≠ "") ∧
  (__init__ (λ _, accepting_client) (Some "vault") w0
     = (Return (handler_for (validated accepting_client) "vault"), verified "vault" w0) ∧
   "vault" ≠ "") ∧
  (__init__ (λ _, accepting_client) (Some "") w0).1 = Raise (ParamValidationError "").
Proof.
  intros w w0 verified. split; [|split]; [split; [reflexivity|]..|reflexivity].
  - exact (proj1 (construction_establishes_bucket_name (λ _, accepting_client) None w
             (handler_for (validated accepting_client) "lake") (verified "lake" w)
             eq_refl)).
  - exact (proj1 (construction_establishes_bucket_name (λ _, accepting_client)
             (Some "vault") w0 (handler_for (validated accepting_client) "vault")
             (verified "vault" w0) eq_refl)).
Defined.

(** ** Listing keys with sizes *)

Lemma first_seen_nothing_new (seen l : list string) :
  (∀ x, x ∈ l → x ∈ seen) → first_seen seen l = [].
Proof.
  induction l as [|x l IH]; intros Hl; [reflexivity|]. simpl.
  rewrite bool_decide_eq_true_2 by (apply Hl; left).
  apply IH. intros y Hy. apply Hl. by right.
Qed.

(** [pd.DataFrame] of the dicts the loop builds: two columns, a row per
    dict. *)
Lemma pd_DataFrame_size_records (obj : S3Object) (objs : list S3Object) :
  pd_DataFrame (map size_record (obj :: objs)) = size_table (obj :: objs).
Proof.
  unfold pd_DataFrame, size_table.
  assert (first_seen [] (map size_record (obj :: objs) ≫= map fst)
          = ["file_name"; "size_bytes"]) as ->.
  { simpl. do 2 f_equal. apply first_seen_nothing_new.
    intros x Hx. apply list_elem_of_bind in Hx as (d & Hx & Hd).
    apply list_elem_of_fmap in Hd as (o & -> & _). simpl in Hx.
    apply elem_of_cons in Hx as [->|Hx]; [by right; left|].
    apply elem_of_cons in Hx as [->|Hx]; [by left|].
    by apply not_elem_of_nil in Hx. }
  f_equal. rewrite map_map. apply map_ext. reflexivity.
Qed.

Lemma collect_pages_all (pages : list ListObjectsV2Output) (data : list pydict) :
  collect_pages (map Return pages) data =
  Return (data ++ map size_record (pages ≫= page_contents)).
Proof.
  revert data. induction pages as [|page pages IH]; intros data; simpl.
  - by rewrite app_nil_r.
  - rewrite IH, map_app, app_assoc. reflexivity.
Qed.

Lemma collect_pages_error (pages : list ListObjectsV2Output) (e : exn)
    (rest : list (outcome ListObjectsV2Output)) (data : list pydict) :
  collect_pages (map Return pages ++ Raise e :: rest) data = Raise e.
Proof.
  revert data. induction pages as [|page pages IH]; intros data; simpl; auto.
Qed.

Lemma list_files_with_sizes_unfold {S} (self : S3ClientHandler S) folder (w : World S) :
  list_files_with_sizes self folder w =
  match collect_pages
          (paginate (s3_client self)
             {| Bucket := bucket_name self; Prefix := Some (default "" folder);
                MaxKeys := None |} (outside w)) [] with
  | Return [] => (Return (pd_DataFrame_columns ["file_name"; "size_bytes"]), w)
  | Return data => (Return (pd_DataFrame data), w)
  | Raise (ClientError _ msg) =>
      (Return (pd_DataFrame_columns ["file_name"; "size_bytes"]),
       set_stdout (stdout w ++ ["Error listing files: " +:+ msg]) w)
  | Raise e => (Raise e, w)
  end.
Proof.
  unfold list_files_with_sizes; run.
  destruct (collect_pages _ _) as [[|d data]|[code msg| | |]]; reflexivity.
Qed.

(** The pages of the bucket store hold every object once, in order. *)
Lemma listing_pages_contents (fuel cap : nat) (objs : list S3Object) :
  (0 < cap)%nat → (length objs < fuel)%nat →
  listing_pages fuel cap objs ≫= page_contents = objs.
Proof.
  intros Hcap. revert objs.
  induction fuel as [|fuel IH]; intros objs Hlen; [lia|].
  pose proof (take_drop cap objs) as Hsplit.
  pose proof (length_drop objs cap) as Hdrop.
  simpl. destruct (take cap objs) as [|o page] eqn:Ht,
    (drop cap objs) as [|o' more] eqn:Hd; simpl in *.
  - done.
  - destruct objs; [done|]. destruct cap; [lia|]. done.
  - by rewrite app_nil_r in *.
  - unfold page_contents at 1. simpl. rewrite IH; [done|].
    simpl. destruct objs; simpl in *; lia.
Qed.

(** C5: whatever pages the paginator yields, the table has the two columns
    and one row per object of the pages, in order, with the object's key
    and size; if a page raises a service error the table is the empty
    two-column one.  Against the bucket store the rows are the objects
    stored under the prefix, however many pages that takes. *)
Theorem list_files_with_sizes_table :
  (∀ S (self : S3ClientHandler S) folder (w : World S) pages,
     paginate (s3_client self)
       {| Bucket := bucket_name self; Prefix := Some (default "" folder);
          MaxKeys := None |} (outside w) = map Return pages →
     list_files_with_sizes self folder w
       = (Return (size_table (pages ≫= page_contents)), w)) ∧
  (∀ S (self : S3ClientHandler S) folder (w : World S) pages code msg rest,
     paginate (s3_client self)
       {| Bucket := bucket_name self; Prefix := Some (default "" folder);
          MaxKeys := None |} (outside w)
       = map Return pages ++ Raise (ClientError code msg) :: rest →
     list_files_with_sizes self folder w
       = (Return (size_table []),
          set_stdout (stdout w ++ ["Error listing files: " +:+ msg]) w)) ∧
  (∀ b objs folder (w : World (gmap string (list S3Object))),
     outside w !! b = Some objs →
     list_files_with_sizes (handler_for store_client b) folder w
       = (Return (size_table (matching (Some (default "" folder)) objs)), w)).
Proof.
  assert (∀ S (self : S3ClientHandler S) folder (w : World S) pages,
     paginate (s3_client self)
       {| Bucket := bucket_name self; Prefix := Some (default "" folder);
          MaxKeys := None |} (outside w) = map Return pages →
     list_files_with_sizes self folder w
       = (Return (size_table (pages ≫= page_contents)), w)) as Hpages.
  { intros S self folder w pages Hp.
    rewrite list_files_with_sizes_unfold, Hp, collect_pages_all. simpl.
    destruct (pages ≫= page_contents) as [|obj objs]; [reflexivity|].
    change (size_record obj :: map size_record objs)
      with (map size_record (obj :: objs)).
    by rewrite pd_DataFrame_size_records. }
  split; [exact Hpages|split].
  - intros S self folder w pages code msg rest Hp.
    by rewrite list_files_with_sizes_unfold, Hp, collect_pages_error.
  - intros b objs folder w Hb.
    rewrite (Hpages _ (handler_for store_client b) folder w
      (listing_pages (1 + length (matching (Some (default "" folder)) objs))
         S3_PAGE_LIMIT (matching (Some (default "" folder)) objs))).
    + rewrite listing_pages_contents; [done|unfold S3_PAGE_LIMIT; lia|lia].
    + simpl. unfold store_pages. simpl. by rewrite Hb.
Qed.

(** C5 on runs: 2001 objects come back as 2001 rows over three pages, in
    key order; a failing service gives the empty table and a printed
    line. *)
Lemma list_files_with_sizes_table_witness :
  let w := initial_world ({[ "b" := numbered_objects 2001 ]}
                            : gmap string (list S3Object)) in
  let w' := initial_world () in
  length (paginate store_client
            {| Bucket := "b"; Prefix := Some "data/"; MaxKeys := None |}
            (outside w)) = 3%nat ∧
  length (matching (Some "data/") (numbered_objects 2001)) = 2001%nat ∧
  list_files_with_sizes (handler_for store_client "b") (Some "data/") w
    = (Return (size_table (matching (Some "data/") (numbered_objects 2001))), w) ∧
  list_files_with_sizes (handler_for (failing_client (ClientError "500" "boom")) "b")
      None w'
    = (Return (size_table []), set_stdout ["Error listing files: boom"] w').
Proof.
  intros w w'. split; [vm_compute; reflexivity|].
  split; [vm_compute; reflexivity|]. split.
  - exact (proj2 (proj2 list_files_with_sizes_table) "b" (numbered_objects 2001)
             (Some "data/") w eq_refl).
  - exact (proj1 (proj2 list_files_with_sizes_table) _
             (handler_for (failing_client (ClientError "500" "boom")) "b")
             None w' [] "500" "boom" [] eq_refl).
Defined.

(** ** Temporary files *)

Lemma string_length_app (s t : string) :
  String.length (s +:+ t) = (String.length s + String.length t)%nat.
Proof. induction s as [|a s IH]; simpl; [done|]. by rewrite IH. Qed.

Lemma string_app_inj_r (s1 s2 t : string) : s1 +:+ t = s2 +:+ t → s1 = s2.
Proof.
  revert s2. induction s1 as [|a s1 IH]; intros [|b s2] H.
  - done.
  - apply (f_equal String.length) in H.
    rewrite !string_length_app in H. simpl in H. lia.
  - apply (f_equal String.length) in H.
    rewrite !string_length_app in H. simpl in H. lia.
  - simpl in H. injection H as -> H. f_equal. by apply IH.
Qed.

Lemma candidate_name_inj (suffix : string) (n m : nat) :
  candidate_name n suffix = candidate_name m suffix → n = m.
Proof.
  unfold candidate_name. intros H. simpl in H. simplify_eq.
  by apply string_app_inj_r, (inj pretty) in H.
Qed.

(** The search finds a name no file has: among the candidates from [n] on,
    those that are taken lie in a set of at most [fuel] files. *)
Lemma unused_index_fresh (fuel n : nat) (files taken : gset string)
    (suffix : string) :
  (∀ m, (n ≤ m)%nat → candidate_name m suffix ∈ files →
        candidate_name m suffix ∈ taken) →
  (size taken ≤ fuel)%nat →
  candidate_name (unused_index fuel n files suffix) suffix ∉ files.
Proof.
  revert n taken. induction fuel as [|fuel IH]; intros n taken Htaken Hsize; simpl.
  - intros Hin. apply Htaken in Hin; [|lia].
    assert (taken = ∅) as -> by (apply leibniz_equiv, size_empty_inv; lia).
    by apply not_elem_of_empty in Hin.
  - case_bool_decide as Hn; [|done].
    apply (IH _ (taken ∖ {[candidate_name n suffix]})).
    + intros m Hm Hin. apply elem_of_difference. split; [apply Htaken; [lia|done]|].
      rewrite elem_of_singleton. intros Heq. apply candidate_name_inj in Heq. lia.
    + assert (candidate_name n suffix ∈ taken) as Hnt by (apply Htaken; [lia|done]).
      rewrite size_difference by (by apply singleton_subseteq_l).
      rewrite size_singleton. lia.
Qed.

Section TemporaryFiles.
Context {S G : Type} (libs : DataLibs S G).
Implicit Types (self : S3ClientHandler S) (w : World S) (gdf : G).

(** [NamedTemporaryFile] takes a name under which no file exists. *)
Lemma temp_name_fresh w suffix : temp_name w suffix ∉ temp_files w.
Proof. apply (unused_index_fresh _ _ _ (temp_files w)); [done|lia]. Qed.

(** So deleting the file restores the files there were. *)
Lemma files_after w suffix :
  files_during w suffix ∖ {[temp_name w suffix]} = temp_files w.
Proof.
  pose proof (temp_name_fresh w suffix) as Hfresh. unfold files_during.
  apply set_eq. intros x.
  rewrite elem_of_difference, elem_of_union, !elem_of_singleton.
  split; [tauto|]. intros Hx. split; [by right|]. by intros ->.
Qed.


(** Inside the block the file exists. *)
Lemma with_NamedTemporaryFile_live suffix w :
  (with_NamedTemporaryFile suffix
     (λ name w1, (Return (bool_decide (name ∈ temp_files w1)), w1)) w).1
  = Return true.
Proof.
  unfold with_NamedTemporaryFile, with_statement. simpl.
  rewrite bool_decide_eq_true_2; [done|].
  apply elem_of_union_l. by apply elem_of_singleton.
Qed.

Ltac finish_temp_call tmp files :=
  unfold after_temp_call; subst tmp files;
  cbn [set_temp set_stdout set_outside environ dotenv stdout temp_files
       temp_seq outside];
  rewrite ?files_after; reflexivity.

(** [upload_geodataframe] by the outcomes of the serialiser and of the
    upload. *)
Lemma upload_geodataframe_unfold self gdf file_name folder w :
  let tmp := temp_name w ".geojson" in
  let files := files_during w ".geojson" in
  let key := s3_key (default "amenities" folder) file_name ".geojson" in
  let failed s msg :=
    (Return (), after_temp_call w ".geojson" s
                  (stdout w ++ ["Error uploading file: " +:+ msg])) in
  upload_geodataframe libs self gdf file_name folder w =
  match to_file libs gdf tmp files (outside w) with
  | (Return _, s1) =>
      match upload_file (s3_client self) tmp (bucket_name self) key files s1 with
      | (Return _, s2) =>
          (Return (),
           after_temp_call w ".geojson" s2
             (stdout w ++ ["Uploaded amenities to s3://" +:+ bucket_name self
                             +:+ "/" +:+ key]))
      | (Raise (ClientError _ msg), s2) => failed s2 msg
      | (Raise e, s2) => (Raise e, after_temp_call w ".geojson" s2 (stdout w))
      end
  | (Raise (ClientError _ msg), s1) => failed s1 msg
  | (Raise e, s1) => (Raise e, after_temp_call w ".geojson" s1 (stdout w))
  end.
Proof.
  intros tmp files key failed. subst failed.
  unfold upload_geodataframe, with_NamedTemporaryFile, with_statement,
    NamedTemporaryFile, close_temporary_file, local_call; run.
  fold tmp key. change ({[tmp]} ∪ temp_files w) with files.
  destruct (to_file libs gdf tmp files (outside w)) as [[[]|[code msg| | |]] s1];
    simpl; try finish_temp_call tmp files.
  change ({[tmp]} ∪ temp_files w) with files.
  destruct (upload_file _ _ _ _ _ _) as [[[]|[code msg| | |]] s2];
    finish_temp_call tmp files.
Qed.

Lemma get_geodataframe_unfold self file_name folder w :
  let tmp := temp_name w ".geojson" in
  let files := files_during w ".geojson" in
  let key := s3_key (default "amenities" folder) file_name ".geojson" in
  let failed s msg :=
    (Return None, after_temp_call w ".geojson" s
                    (stdout w ++ ["Error downloading file: " +:+ msg])) in
  get_geodataframe libs self file_name folder w =
  match download_file (s3_client self) (bucket_name self) key tmp files (outside w) with
  | (Return _, s1) =>
      match read_file libs tmp files s1 with
      | Return gdf => (Return (Some gdf), after_temp_call w ".geojson" s1 (stdout w))
      | Raise (ClientError _ msg) => failed s1 msg
      | Raise e => (Raise e, after_temp_call w ".geojson" s1 (stdout w))
      end
  | (Raise (ClientError _ msg), s1) => failed s1 msg
  | (Raise e, s1) => (Raise e, after_temp_call w ".geojson" s1 (stdout w))
  end.
Proof.
  intros tmp files key failed. subst failed.
  unfold get_geodataframe, with_NamedTemporaryFile, with_statement,
    NamedTemporaryFile, close_temporary_file, local_call, local_read; run.
  fold tmp key. change ({[tmp]} ∪ temp_files w) with files.
  destruct (download_file _ _ _ _ _ _) as [[[]|[code msg| | |]] s1];
    simpl; try finish_temp_call tmp files.
  change ({[tmp]} ∪ temp_files w) with files.
  destruct (read_file _ _ _ _) as [gdf|[code msg| | |]];
    finish_temp_call tmp files.
Qed.

Lemma get_excel_file_unfold self file_name folder w :
  let tmp := temp_name w ".xlsx" in
  let files := files_during w ".xlsx" in
  let key := s3_key (default "amenities" folder) file_name ".xlsx" in
  let failed s msg :=
    (Return None, after_temp_call w ".xlsx" s
                    (stdout w ++ ["Error downloading file: " +:+ msg])) in
  get_excel_file libs self file_name folder w =
  match download_file (s3_client self) (bucket_name self) key tmp files (outside w) with
  | (Return _, s1) =>
      match read_excel libs tmp files s1 with
      | Return df => (Return (Some df), after_temp_call w ".xlsx" s1 (stdout w))
      | Raise (ClientError _ msg) => failed s1 msg
      | Raise e => (Raise e, after_temp_call w ".xlsx" s1 (stdout w))
      end
  | (Raise (ClientError _ msg), s1) => failed s1 msg
  | (Raise e, s1) => (Raise e, after_temp_call w ".xlsx" s1 (stdout w))
  end.
Proof.
  intros tmp files key failed. subst failed.
  unfold get_excel_file, with_NamedTemporaryFile, with_statement,
    NamedTemporaryFile, close_temporary_file, local_call, local_read; run.
  fold tmp key. change ({[tmp]} ∪ temp_files w) with files.
  destruct (download_file _ _ _ _ _ _) as [[[]|[code msg| | |]] s1];
    simpl; try finish_temp_call tmp files.
  change ({[tmp]} ∪ temp_files w) with files.
  destruct (read_excel _ _ _ _) as [df|[code msg| | |]];
    finish_temp_call tmp files.
Qed.
End TemporaryFiles.

Section ScopedFile.
Context {S G : Type}.
Implicit Types (libs : DataLibs S G) (self : S3ClientHandler S) (w : World S).

End ScopedFile.


(** * Further properties of the facade *)

(** ** Construction: success and effects *)

Section ConstructionEffects.
Context {S : Type} (s3_api : gmap string string → S3Client S).
Implicit Types (w : World S) (self : S3ClientHandler S).

(** X1: once a bucket name is resolved (the argument, or a non-empty
    [S3_BUCKET_NAME]) and the bounded listing returns, construction returns
    a facade that is initialised, holds that name and hands out the client
    it created; it prints the one verification line. *)
Theorem construction_succeeds arg w name r :
  arg = Some name ∨
    (arg = None ∧ configured_bucket_name w = Some name ∧ name ≠ "") →
  list_objects_v2 (created_client s3_api w) (permission_probe name) (outside w)
    = Return r →
  ∃ self,
    __init__ s3_api arg w =
      (Return self,
       set_stdout (stdout w ++ ["Permissions verified for bucket: " +:+ name])
         (after_load_dotenv w)) ∧
    bucket_name self = name ∧ get_client self = created_client s3_api w ∧
    _initialized self = true.
Proof.
  intros Hname Hprobe. exists (handler_for (created_client s3_api w) name).
  rewrite (__init___resolved s3_api arg w name Hname), _check_permissions_unfold.
  cbn [handler_for s3_client bucket_name after_load_dotenv set_environ outside].
  rewrite Hprobe. repeat split.
Qed.

(** Every way [__init__] can end, by how the name resolves. *)
Lemma __init___cases arg w :
  (∃ name, (arg = Some name ∨
       (arg = None ∧ configured_bucket_name w = Some name ∧ name ≠ "")) ∧
     __init__ s3_api arg w =
     match _check_permissions (handler_for (created_client s3_api w) name)
             (after_load_dotenv w) with
     | (Return _, w') => (Return (handler_for (created_client s3_api w) name), w')
     | (Raise e, w') => (Raise e, w')
     end) ∨
  (arg = None ∧
   __init__ s3_api arg w =
   (Raise (ValueError "S3 bucket name not found in environment variables."),
    after_load_dotenv w)).
Proof.
  destruct arg as [b|].
  - left. exists b. split; [by left|]. apply __init___resolved. by left.
  - destruct (configured_bucket_name w) as [name|] eqn:Hcfg.
    + destruct (decide (name = "")) as [->|Hne].
      * right. split; [done|]. apply __init___unresolved. by right.
      * left. exists name. split; [by right|]. apply __init___resolved. by right.
    + right. split; [done|]. apply __init___unresolved. by left.
Qed.

(** X2: whatever the argument and however construction ends, it leaves the
    .env file merged into the process environment without replacing a
    variable that was set, touches neither the outside state nor the
    temporary files, and prints the verification line exactly when it
    returns: a failed construction prints nothing. *)
Theorem construction_effects arg w :
  let w' := (__init__ s3_api arg w).2 in
  environ w' = environ w ∪ dotenv w ∧
  (∀ k v, environ w !! k = Some v → environ w' !! k = Some v) ∧
  outside w' = outside w ∧
  temp_files w' = temp_files w ∧
  match (__init__ s3_api arg w).1 with
  | Return self =>
      stdout w' = stdout w ++ ["Permissions verified for bucket: " +:+ bucket_name self]
  | Raise _ => stdout w' = stdout w
  end.
Proof.
  intros w'.
  assert (environ w' = environ w ∪ dotenv w ∧ outside w' = outside w ∧
          temp_files w' = temp_files w ∧
          match (__init__ s3_api arg w).1 with
          | Return self =>
              stdout w' = stdout w ++
                ["Permissions verified for bucket: " +:+ bucket_name self]
          | Raise _ => stdout w' = stdout w
          end) as (He & Ho & Ht & Hs).
  { subst w'.
    destruct (__init___cases arg w) as [(name & _ & ->)|[_ ->]]; [|done].
    rewrite _check_permissions_unfold.
    cbn [handler_for s3_client bucket_name after_load_dotenv set_environ outside].
    destruct (list_objects_v2 _ _ _) as [r|[code msg| | |]]; done. }
  repeat split; try done.
  intros k v Hk. rewrite He. by apply lookup_union_Some_l.
Qed.
End ConstructionEffects.

(** X1 on runs: a name from the .env file, and a name given. *)
Lemma construction_succeeds_witness :
  let w : World () := world_with_env ∅ {[ "S3_BUCKET_NAME" := "lake" ]} () in
  (configured_bucket_name w = Some "lake" ∧
   ∃ self, (__init__ (λ _, accepting_client) None w).1 = Return self ∧
           bucket_name self = "lake") ∧
  (∃ self, (__init__ (λ _, accepting_client) (Some "vault") (initial_world ())).1
             = Return self ∧
           bucket_name self = "vault").
Proof.
  intros w. split; [split; [reflexivity|]|].
  - destruct (construction_succeeds (λ _, accepting_client) None w "lake"
                {| Contents := None; IsTruncated := false |})
      as (self & Hinit & Hname & _).
    + right. split; [reflexivity|]. split; [reflexivity|discriminate].
    + reflexivity.
    + exists self. by rewrite Hinit.
  - destruct (construction_succeeds (λ _, accepting_client) (Some "vault")
                (initial_world ())
                "vault" {| Contents := None; IsTruncated := false |}
                (or_introl eq_refl) eq_refl)
      as (self & Hinit & Hname & _).
    exists self. by rewrite Hinit.
Defined.

(** ** Transfers *)

Section TransferOutcomes.
Context {S G : Type} (libs : DataLibs S G).
Implicit Types (self : S3ClientHandler S) (w : World S) (gdf : G).

(** X4: [upload_geodataframe] never raises a service error and its return
    value does not tell a finished upload from a swallowed one: it returns
    [None] either way, having printed exactly one line; when it raises it
    has printed nothing; and when the serialiser raises, no upload is
    attempted, the outside state being the one the serialiser left. *)
Theorem upload_geodataframe_swallows_service_errors self gdf file_name folder w :
  let r := upload_geodataframe libs self gdf file_name folder w in
  raises_client_error r.1 = false ∧
  (r.1 = Return () → ∃ line, stdout r.2 = stdout w ++ [line]) ∧
  (∀ e, r.1 = Raise e → stdout r.2 = stdout w) ∧
  (∀ e s1, to_file libs gdf (temp_name w ".geojson") (files_during w ".geojson")
             (outside w) = (Raise e, s1) →
     outside r.2 = s1 ∧ r.1 = if is_client_error e then Return () else Raise e).
Proof.
  intros r. subst r. rewrite upload_geodataframe_unfold. cbv zeta.
  destruct (to_file libs gdf _ _ (outside w)) as [[[]|e1] s1];
    [destruct (upload_file _ _ _ _ _ _) as [[[]|e2] s2]; [|destruct e2]
    |destruct e1];
    (split_and!;
     [ done
     | intros H; try done; simpl; eauto
     | intros e' H; done
     | intros e' s' H; simplify_eq; done ]).
Qed.

(** X5: [get_geodataframe] never raises a service error.  It returns
    [None] only after printing the one line that reports a service error;
    a table it returns is the one [read_file] read from the temporary file
    the download had written, and nothing is printed; when it raises it
    has printed nothing. *)
Theorem get_geodataframe_outcomes self file_name folder w :
  let r := get_geodataframe libs self file_name folder w in
  let tmp := temp_name w ".geojson" in
  let files := files_during w ".geojson" in
  let key := default "amenities" folder +:+ "/" +:+ file_name +:+ ".geojson" in
  raises_client_error r.1 = false ∧
  (r.1 = Return None →
     ∃ msg, stdout r.2 = stdout w ++ ["Error downloading file: " +:+ msg]) ∧
  (∀ gdf, r.1 = Return (Some gdf) →
     stdout r.2 = stdout w ∧
     ∃ s1, download_file (s3_client self) (bucket_name self) key tmp files (outside w)
             = (Return (), s1) ∧
           read_file libs tmp files s1 = Return gdf ∧ outside r.2 = s1) ∧
  (∀ e, r.1 = Raise e → stdout r.2 = stdout w).
Proof.
  intros r tmp files key. subst r. rewrite get_geodataframe_unfold. cbv zeta.
  fold tmp files. change (s3_key (default "amenities" folder) file_name ".geojson") with key.
  destruct (download_file _ _ _ _ _ _) as [[[]|e1] s1].
  - destruct (read_file libs tmp files s1) as [gdf|e2] eqn:Hread; [|destruct e2];
      (split_and!;
       [ done
       | intros H; try done; simpl; eauto
       | intros t H; simpl in H; simplify_eq;
         try (split; [done|eexists; split_and!; done])
       | intros e' H; done ]).
  - destruct e1;
      (split_and!;
       [ done
       | intros H; try done; simpl; eauto
       | intros t H; simpl in H; simplify_eq
       | intros e' H; done ]).
Qed.

(** X6: [get_excel_file] has the same contract, on the key with the
    [.xlsx] extension and with [read_excel] as the reader. *)
Theorem get_excel_file_outcomes self file_name folder w :
  let r := get_excel_file libs self file_name folder w in
  let tmp := temp_name w ".xlsx" in
  let files := files_during w ".xlsx" in
  let key := default "amenities" folder +:+ "/" +:+ file_name +:+ ".xlsx" in
  raises_client_error r.1 = false ∧
  (r.1 = Return None →
     ∃ msg, stdout r.2 = stdout w ++ ["Error downloading file: " +:+ msg]) ∧
  (∀ df, r.1 = Return (Some df) →
     stdout r.2 = stdout w ∧
     ∃ s1, download_file (s3_client self) (bucket_name self) key tmp files (outside w)
             = (Return (), s1) ∧
           read_excel libs tmp files s1 = Return df ∧ outside r.2 = s1) ∧
  (∀ e, r.1 = Raise e → stdout r.2 = stdout w).
Proof.
  intros r tmp files key. subst r. rewrite get_excel_file_unfold. cbv zeta.
  fold tmp files. change (s3_key (default "amenities" folder) file_name ".xlsx") with key.
  destruct (download_file _ _ _ _ _ _) as [[[]|e1] s1].
  - destruct (read_excel libs tmp files s1) as [df|e2] eqn:Hread; [|destruct e2];
      (split_and!;
       [ done
       | intros H; try done; simpl; eauto
       | intros t H; simpl in H; simplify_eq;
         try (split; [done|eexists; split_and!; done])
       | intros e' H; done ]).
  - destruct e1;
      (split_and!;
       [ done
       | intros H; try done; simpl; eauto
       | intros t H; simpl in H; simplify_eq
       | intros e' H; done ]).
Qed.
End TransferOutcomes.

(** ** Upload, then probe *)

Section UploadThenProbe.
Context {S G : Type} (libs : DataLibs S G) (self : S3ClientHandler S).
Implicit Types (w : World S) (gdf : G).

(** The success line is printed only when both the serialiser and the
    upload returned. *)
Lemma upload_success_line gdf file_name folder w location :
  let w' := (upload_geodataframe libs self gdf file_name folder w).2 in
  stdout w' = stdout w ++ ["Uploaded amenities to " +:+ location] →
  ∃ s1 s2,
    to_file libs gdf (temp_name w ".geojson") (files_during w ".geojson") (outside w)
      = (Return (), s1) ∧
    upload_file (s3_client self) (temp_name w ".geojson") (bucket_name self)
      (s3_key (default "amenities" folder) file_name ".geojson")
      (files_during w ".geojson") s1
      = (Return (), s2) ∧
    w' = after_temp_call w ".geojson" s2 (stdout w') .
Proof.
  intros w'. subst w'. rewrite upload_geodataframe_unfold. cbv zeta.
  assert (∀ x : string, stdout w ≠ stdout w ++ [x]) as Hsilent.
  { intros x Hx. apply (f_equal length) in Hx.
    rewrite length_app in Hx. simpl in Hx. lia. }
  destruct (to_file libs gdf _ _ (outside w)) as [[[]|e1] s1] eqn:Hto;
    [destruct (upload_file _ _ _ _ _ s1) as [[[]|e2] s2] eqn:Hup; [|destruct e2]
    |destruct e1];
    simpl; intros Hout;
    try (by apply Hsilent in Hout);
    try (apply app_inv_head in Hout; simpl in Hout; discriminate).
  exists s1, s2. split_and!; [reflexivity|exact Hup|reflexivity].
Qed.

(** What the facade needs of the service: an object whose upload returned
    is there for a metadata probe. *)
Hypothesis uploaded_is_visible : ∀ path key files s s',
  upload_file (s3_client self) path (bucket_name self) key files s = (Return (), s') →
  head_object (s3_client self) (bucket_name self) key s' = Return ().

(** X7: with the folder given or omitted alike, once [upload_geodataframe]
    has printed its success line, [check_geodataframe_exists] with the same
    name and folder answers true in the world the upload left, and prints
    nothing. *)
Theorem uploaded_object_is_found gdf file_name folder w :
  let w' := (upload_geodataframe libs self gdf file_name folder w).2 in
  (∃ location, stdout w' = stdout w ++ ["Uploaded amenities to " +:+ location]) →
  check_geodataframe_exists self file_name folder w' = (Return true, w').
Proof.
  intros w' [location Hline].
  destruct (upload_success_line _ _ _ _ _ Hline) as (s1 & s2 & _ & Hup & Hw').
  fold w' in Hw'.
  pose proof (ObjectExists_unfold true self file_name folder w') as Hprobe.
  cbn [ObjectExists] in Hprobe. rewrite Hprobe.
  replace (outside w') with s2 by (by rewrite Hw').
  pose proof (uploaded_is_visible _ _ _ _ _ Hup) as Hhead.
  unfold s3_key in Hhead. unfold probed_key. by rewrite Hhead.
Qed.
End UploadThenProbe.

(** The store that takes transfers meets the requirement. *)
Lemma disk_uploaded_is_visible (bucket path key : string) (files : gset string)
    (d d' : Disk) :
  upload_file disk_client path bucket key files d = (Return (), d') →
  head_object disk_client bucket key d' = Return ().
Proof.
  simpl. destruct (local_files d !! path) as [body|]; [|done].
  destruct (buckets d !! bucket) as [objs|]; [|done].
  intros [= <-]. unfold disk_body. simpl.
  rewrite lookup_insert_eq. simpl. by rewrite lookup_insert_eq.
Qed.

(** X7 on a run: upload into an empty bucket with the folder omitted, then
    probe. *)
Lemma uploaded_object_is_found_witness :
  let self := handler_for disk_client "lake" in
  let w := initial_world (empty_bucket "lake") in
  let w' := (upload_geodataframe disk_libs self "{}" "parks" None w).2 in
  stdout w' = ["Uploaded amenities to s3://lake/amenities/parks.geojson"] ∧
  check_geodataframe_exists self "parks" None w' = (Return true, w').
Proof.
  intros self w w'. split; [reflexivity|].
  apply (uploaded_object_is_found disk_libs self
           (λ path key files, disk_uploaded_is_visible "lake" path key files)
           "{}" "parks" None w).
  exists "s3://lake/amenities/parks.geojson". reflexivity.
Defined.

(** ** The two listings side by side *)

Lemma file_names_size_table (objs : list S3Object) :
  file_names (size_table objs) = map Key objs.
Proof.
  unfold file_names, size_table. simpl.
  induction objs as [|obj objs IH]; [reflexivity|].
  simpl. f_equal. exact IH.
Qed.

(** The table for pages that all came back. *)
Lemma list_files_with_sizes_pages {S} (self : S3ClientHandler S) folder
    (w : World S) (pages : list ListObjectsV2Output) :
  paginate (s3_client self)
    {| Bucket := bucket_name self; Prefix := Some (default "" folder);
       MaxKeys := None |} (outside w) = map Return pages →
  list_files_with_sizes self folder w
    = (Return (size_table (pages ≫= page_contents)), w).
Proof.
  intros Hp. rewrite list_files_with_sizes_unfold, Hp, collect_pages_all. simpl.
  destruct (pages ≫= page_contents) as [|obj objs]; [reflexivity|].
  change (size_record obj :: map size_record objs)
    with (map size_record (obj :: objs)).
  by rewrite pd_DataFrame_size_records.
Qed.

(** X9: when the paginator's first page is the response the plain call
    gets, [list_files] returns the keys of that first page only, so its
    result is an initial segment of the [file_name] column of
    [list_files_with_sizes], and the two agree exactly when the later pages
    carry no object. *)
Theorem list_files_is_first_page_of_sizes {S} (self : S3ClientHandler S) folder
    (w : World S) (page : ListObjectsV2Output) (pages : list ListObjectsV2Output) :
  let req := {| Bucket := bucket_name self; Prefix := Some (default "" folder);
                MaxKeys := None |} in
  paginate (s3_client self) req (outside w) = map Return (page :: pages) →
  list_objects_v2 (s3_client self) req (outside w) = Return page →
  ∃ keys df,
    list_files self folder w = (Return keys, w) ∧
    list_files_with_sizes self folder w = (Return df, w) ∧
    file_names df = keys ++ map Key (pages ≫= page_contents) ∧
    (pages ≫= page_contents = [] ↔ file_names df = keys).
Proof.
  intros req Hpages Hfirst.
  exists (map Key (page_contents page)), (size_table ((page :: pages) ≫= page_contents)).
  rewrite list_files_unfold. fold req. rewrite Hfirst.
  rewrite (list_files_with_sizes_pages self folder w (page :: pages) Hpages).
  rewrite file_names_size_table, bind_cons, map_app.
  split_and!; try reflexivity. split.
  - intros ->. by rewrite app_nil_r.
  - intros Heq. rewrite <- (app_nil_r (map Key (page_contents page))) in Heq at 2.
    apply app_inv_head in Heq. by apply map_eq_nil in Heq.
Qed.

(** X9 on a run: 1001 objects, two pages; the plain listing stops at the
    first and misses the last key. *)
Lemma list_files_is_first_page_of_sizes_witness :
  let w := initial_world ({[ "b" := numbered_objects 1001 ]}
                            : gmap string (list S3Object)) in
  ∃ keys df,
    list_files (handler_for store_client "b") (Some "data/") w = (Return keys, w) ∧
    list_files_with_sizes (handler_for store_client "b") (Some "data/") w
      = (Return df, w) ∧
    file_names df = keys ++ ["data/999"].
Proof.
  intros w.
  destruct (list_files_is_first_page_of_sizes (handler_for store_client "b")
              (Some "data/") w
              {| Contents :=
                   Some (take 1000 (matching (Some "data/") (numbered_objects 1001)));
                 IsTruncated := true |}
              [ {| Contents := Some [ {| Key := "data/999"; Size := 999 |} ];
                   IsTruncated := false |} ])
    as (keys & df & Hk & Hd & Hn & _).
  - vm_compute. reflexivity.
  - vm_compute. reflexivity.
  - exists keys, df. split_and!; [exact Hk|exact Hd|exact Hn].
Defined.

(** ** Listing and probing the same bucket *)

(** X10: against the bucket store, every key [list_files] returns begins
    with the folder string as given (no separator is added to it) and is
    the key of a stored object; and however that key is split into a folder
    and a name around a ["/"], [check_file_exists] on the two answers true
    without printing. *)
Theorem listed_key_is_found (b : string) (objs : list S3Object)
    (folder : option string) (w : World (gmap string (list S3Object)))
    (keys : list string) (key : string) :
  outside w !! b = Some objs →
  list_files (handler_for store_client b) folder w = (Return keys, w) →
  key ∈ keys →
  String.prefix (default "" folder) key = true ∧
  key ∈ map Key objs ∧
  ∀ dir name, dir +:+ "/" +:+ name = key →
    check_file_exists (handler_for store_client b) name (Some dir) w = (Return true, w).
Proof.
  intros Hb Hlist Hkey.
  rewrite (list_files_store b objs folder w Hb) in Hlist.
  injection Hlist as <-.
  apply list_elem_of_fmap in Hkey as (obj & -> & Hobj).
  apply subseteq_take in Hobj. unfold matching in Hobj.
  rewrite merge_sort_Permutation in Hobj.
  apply list_elem_of_In, filter_In in Hobj as [Hin Hpre].
  assert (Key obj ∈ map Key objs) as Hstored.
  { apply list_elem_of_fmap. exists obj. split; [done|]. by apply list_elem_of_In. }
  split_and!; [exact Hpre|exact Hstored|].
  intros dir name Hsplit.
  pose proof (ObjectExists_unfold false (handler_for store_client b) name (Some dir) w)
    as Hprobe.
  cbn [ObjectExists] in Hprobe. rewrite Hprobe.
  rewrite <- Hsplit in Hstored.
  unfold probed_key. simpl in *. rewrite Hb.
  by rewrite bool_decide_eq_true_2.
Qed.

(** X10 on a run. *)
Lemma listed_key_is_found_witness :
  let objs := [ {| Key := "maps/parks.geojson"; Size := 12 |};
                {| Key := "mapsheet.xlsx"; Size := 7 |};
                {| Key := "notes.txt"; Size := 3 |} ] in
  let w := initial_world ({[ "b" := objs ]} : gmap string (list S3Object)) in
  list_files (handler_for store_client "b") (Some "maps") w
    = (Return ["maps/parks.geojson"; "mapsheet.xlsx"], w) ∧
  check_file_exists (handler_for store_client "b") "parks.geojson" (Some "maps") w
    = (Return true, w).
Proof.
  intros objs w. split; [reflexivity|].
  refine (proj2 (proj2 (listed_key_is_found "b" objs (Some "maps") w
            ["maps/parks.geojson"; "mapsheet.xlsx"] "maps/parks.geojson"
            eq_refl eq_refl _)) "maps" "parks.geojson" eq_refl).
  by left.
Defined.

(** ** Output *)

Section Output.
Context {S G : Type} (s3_api : gmap string string → S3Client S) (libs : DataLibs S G).
Implicit Types (self : S3ClientHandler S) (w : World S).

Lemma prints_nothing w w' :
  stdout w' = stdout w →
  ∃ lines, stdout w' = stdout w ++ lines ∧ (length lines ≤ 1)%nat.
Proof. intros ->. exists []. rewrite app_nil_r. simpl. split; [done|lia]. Qed.

Lemma prints_one w w' line :
  stdout w' = stdout w ++ [line] →
  ∃ lines, stdout w' = stdout w ++ lines ∧ (length lines ≤ 1)%nat.
Proof. intros ->. exists [line]. simpl. split; [done|lia]. Qed.

Ltac one_line := first [ by apply prints_nothing | by eapply prints_one ].

(** X11: no call of the facade prints more than one line, and none alters
    what was printed before: the constructor, both listings, both probes,
    the upload and both downloads, on every path through them. *)
Theorem every_call_prints_at_most_one_line self arg (gdf : G) file_name folder :
  prints_at_most_one_line (__init__ s3_api arg) ∧
  prints_at_most_one_line (list_files self folder) ∧
  prints_at_most_one_line (list_files_with_sizes self folder) ∧
  prints_at_most_one_line (check_geodataframe_exists self file_name folder) ∧
  prints_at_most_one_line (check_file_exists self file_name folder) ∧
  prints_at_most_one_line (upload_geodataframe libs self gdf file_name folder) ∧
  prints_at_most_one_line (get_geodataframe libs self file_name folder) ∧
  prints_at_most_one_line (get_excel_file libs self file_name folder).
Proof.
  split_and!; intros w.
  - destruct (__init___cases s3_api arg w) as [(name & _ & Hinit)|[_ Hinit]];
      [|rewrite Hinit; one_line].
    rewrite _check_permissions_unfold in Hinit.
    cbn [handler_for s3_client bucket_name after_load_dotenv set_environ outside]
      in Hinit.
    rewrite Hinit.
    destruct (list_objects_v2 _ _ _) as [r|[]]; one_line.
  - rewrite list_files_unfold.
    destruct (list_objects_v2 _ _ _) as [r|[]]; one_line.
  - rewrite list_files_with_sizes_unfold.
    destruct (collect_pages _ _) as [[|d data]|[]]; one_line.
  - pose proof (ObjectExists_unfold true self file_name folder w) as Hprobe.
    cbn [ObjectExists] in Hprobe. rewrite Hprobe.
    destruct (head_object _ _ _ _) as [u|[code msg| | |]];
      try case_bool_decide; one_line.
  - pose proof (ObjectExists_unfold false self file_name folder w) as Hprobe.
    cbn [ObjectExists] in Hprobe. rewrite Hprobe.
    destruct (head_object _ _ _ _) as [u|[code msg| | |]];
      try case_bool_decide; one_line.
  - rewrite upload_geodataframe_unfold. cbv zeta.
    destruct (to_file libs gdf _ _ (outside w)) as [[[]|e1] s1];
      [destruct (upload_file _ _ _ _ _ _) as [[[]|e2] s2]; [|destruct e2]
      |destruct e1]; one_line.
  - rewrite get_geodataframe_unfold. cbv zeta.
    destruct (download_file _ _ _ _ _ _) as [[[]|e1] s1];
      [destruct (read_file _ _ _ _) as [t|e2]; [|destruct e2]
      |destruct e1]; one_line.
  - rewrite get_excel_file_unfold. cbv zeta.
    destruct (download_file _ _ _ _ _ _) as [[[]|e1] s1];
      [destruct (read_excel _ _ _ _) as [t|e2]; [|destruct e2]
      |destruct e1]; one_line.
Qed.
End Output.

(** ** Runs of the transfers *)

(** X4 on runs: an upload the service refuses returns like one that
    worked, and a serialiser that raises leaves the outside state alone. *)
Lemma upload_geodataframe_swallows_service_errors_witness :
  let w := initial_world () in
  let refused := handler_for (failing_client (ClientError "AccessDenied" "denied")) "b" in
  let broken := failing_libs (OtherException "DriverError" "unsupported") in
  (upload_geodataframe idle_libs refused () "parks" None w).1 = Return () ∧
  stdout (upload_geodataframe idle_libs refused () "parks" None w).2
    = ["Error uploading file: denied"] ∧
  (upload_geodataframe broken (handler_for accepting_client "b") () "parks" None w).1
    = Raise (OtherException "DriverError" "unsupported").
Proof.
  intros w refused broken. split_and!; [reflexivity|reflexivity|].
  exact (proj2 (proj2 (proj2 (proj2 (upload_geodataframe_swallows_service_errors
           broken (handler_for accepting_client "b") () "parks" None w)))
           (OtherException "DriverError" "unsupported") () eq_refl)).
Defined.

(** X5 on runs: a missing object gives [None] and a line; a stored one
    gives the table and no line. *)
Lemma get_geodataframe_outcomes_witness :
  let w := initial_world () in
  let missing := handler_for (failing_client not_found) "b" in
  (get_geodataframe idle_libs missing "parks" None w).1 = Return None ∧
  (∃ msg, stdout (get_geodataframe idle_libs missing "parks" None w).2
            = ["Error downloading file: " +:+ msg]) ∧
  (get_geodataframe idle_libs (handler_for accepting_client "b") "parks" None w).1
    = Return (Some ()).
Proof.
  intros w missing. split_and!; [reflexivity| |reflexivity].
  exact (proj1 (proj2 (get_geodataframe_outcomes idle_libs missing "parks" None w))
           eq_refl).
Defined.

(** X6 on runs, for the spreadsheet download. *)
Lemma get_excel_file_outcomes_witness :
  let w := initial_world () in
  let missing := handler_for (failing_client not_found) "b" in
  (get_excel_file idle_libs missing "census" None w).1 = Return None ∧
  (∃ msg, stdout (get_excel_file idle_libs missing "census" None w).2
            = ["Error downloading file: " +:+ msg]) ∧
  (get_excel_file idle_libs (handler_for accepting_client "b") "census" None w).1
    = Return (Some (pd_DataFrame_columns [])).
Proof.
  intros w missing. split_and!; [reflexivity| |reflexivity].
  exact (proj1 (proj2 (get_excel_file_outcomes idle_libs missing "census" None w))
           eq_refl).
Defined.
